(** * PortfolioAI: the structured-extraction contract, its consumers and its
      collaborators

    A shallow embedding of [schema.py], [app.py], [db_interface.py],
    [alert_sender.py] and [document_assets.py].

    - Python [str] values are strings of UTF-8 bytes ([string]); the case
      mapping and the whitespace of [PyStr] are Python's on the ASCII range.
    - What [json.loads] returns is a [json] value; a [dict] is an association
      list read by its first binding of a key.
    - A Python exception is a value of [exn]; a computation that may raise
      returns an [outcome].
    - Module globals ([client], [supabase], [RESEND_API_KEY]), the Streamlit
      session state and everything printed or shown live in a [World] that
      the effectful functions pass along.
    - The third-party calls whose results the code only forwards
      ([json.loads], f-string formatting of an arbitrary value, [str] of an
      exception, pydantic's lax conversion of a non-integer to [int],
      [json.dumps]) are the fields of the class [PyLib].
    - What [upper] and [strip] give on text beyond ASCII, and what reportlab
      and python-docx do with a text they are handed, are the fields of the
      class [DocLib]. *)

From Stdlib Require Import String Ascii List ZArith QArith Bool Arith Lia SpecFloat
  DecimalString.
Import ListNotations.
Set Warnings "-register-all".
Open Scope list_scope.
Open Scope string_scope.

(** ** Python string operations *)

Module PyStr.

Definition islower (c : ascii) : bool :=
  let n := nat_of_ascii c in (97 <=? n)%nat && (n <=? 122)%nat.

Definition upper_char (c : ascii) : ascii :=
  if islower c then ascii_of_nat (nat_of_ascii c - 32) else c.

(** [s.upper()] for a string of ASCII characters *)
Fixpoint upper (s : string) : string :=
  match s with
  | EmptyString => EmptyString
  | String c r => String (upper_char c) (upper r)
  end.

(** [c.isspace()] on the ASCII range: TAB..CR, FS..US and the space. *)
Definition isspace (c : ascii) : bool :=
  let n := nat_of_ascii c in
  ((9 <=? n)%nat && (n <=? 13)%nat) || ((28 <=? n)%nat && (n <=? 32)%nat).

Fixpoint lstrip (s : string) : string :=
  match s with
  | EmptyString => EmptyString
  | String c r => if isspace c then lstrip r else s
  end.

Fixpoint rstrip (s : string) : string :=
  match s with
  | EmptyString => EmptyString
  | String c r =>
      match rstrip r with
      | EmptyString => if isspace c then EmptyString else String c EmptyString
      | r' => String c r'
      end
  end.

(** [s.strip()] for a string of ASCII characters *)
Definition strip (s : string) : string := rstrip (lstrip s).

(** [s.split(sep)] for a one-character separator. *)
Fixpoint split (sep : ascii) (s : string) : list string :=
  match s with
  | EmptyString => [EmptyString]
  | String c r =>
      if Ascii.eqb c sep then EmptyString :: split sep r
      else match split sep r with
           | h :: t => String c h :: t
           | [] => [String c EmptyString]
           end
  end.

(** [s.replace(old, '')] for a non-empty [old]: [skip] counts the characters
    of a match still to be dropped. *)
Fixpoint remove_from (old : string) (skip : nat) (s : string) : string :=
  match s with
  | EmptyString => EmptyString
  | String c r =>
      match skip with
      | S k => remove_from old k r
      | O => if String.prefix old s
             then remove_from old (String.length old - 1) r
             else String c (remove_from old 0 r)
      end
  end.

Definition remove (old s : string) : string := remove_from old 0 s.

(** [sep.join(parts)] *)
Definition join (sep : string) (parts : list string) : string :=
  String.concat sep parts.

(** [s * n] *)
Fixpoint times (s : string) (n : nat) : string :=
  match n with
  | O => EmptyString
  | S k => s ++ times s k
  end.

(** [needle in hay] *)
Fixpoint contains (needle hay : string) : bool :=
  String.prefix needle hay ||
  match hay with
  | EmptyString => false
  | String _ r => contains needle r
  end.

(** [not s]: a string is falsy when it is empty. *)
Definition falsy (s : string) : bool :=
  match s with EmptyString => true | _ => false end.

End PyStr.

(** The substring relation the statements use. *)
Definition Substring (needle hay : string) : Prop :=
  exists a b, hay = a ++ needle ++ b.

(** ** Values, exceptions, outcomes *)

(** What [json.loads] can return; a [float] is an IEEE 754 binary64 value. *)
Inductive json : Type :=
| JNull
| JBool (b : bool)
| JInt (z : Z)
| JFloat (f : spec_float)
| JStr (s : string)
| JList (xs : list json)
| JObj (kvs : list (string * json)).

(** [d.get(key)] / [key in d] on an association list. *)
Fixpoint lookup {A : Type} (key : string) (kvs : list (string * A)) : option A :=
  match kvs with
  | [] => None
  | (k, v) :: rest => if String.eqb k key then Some v else lookup key rest
  end.

(** One entry of a pydantic [ValidationError]: the error type and the
    location (field names and list indices, outermost first). *)
Inductive loc_item : Type :=
| LField (name : string)
| LIndex (i : nat).

Record ErrorDetails : Type := mkError {
  err_type : string;
  err_loc : list loc_item
}.

(** Instances of Python's [Exception]. *)
Inductive exn : Type :=
| ValidationError (title : string) (errors : list ErrorDetails)
| TypeError (msg : string)
| KeyError (key : string)
| AttributeError (msg : string)
| OtherError (cls : string) (msg : string).

Inductive outcome (A : Type) : Type :=
| Return (a : A)
| Raise (e : exn).
Arguments Return {A} a.
Arguments Raise {A} e.

Definition obind {A B : Type} (o : outcome A) (k : A -> outcome B) : outcome B :=
  match o with
  | Return a => k a
  | Raise e => Raise e
  end.

Notation "'let*' x := o 'in' k" := (obind o (fun x => k))
  (at level 10, x name, o at level 100, k at level 200).

(** A [for] loop whose every turn appends to one list, or raises. *)
Fixpoint for_each {A B : Type} (body : A -> outcome (list B)) (xs : list A)
    : outcome (list B) :=
  match xs with
  | [] => Return []
  | x :: rest =>
      let* out := body x in
      let* more := for_each body rest in
      Return (out ++ more)%list
  end.

Class PyLib : Type := {
  (** [json.loads(text)] *)
  json_loads : string -> outcome json;
  (** [json.dumps]-style serialisation used by [model_dump_json] *)
  json_dumps : json -> string;
  (** what an f-string puts for [{v}] *)
  format_value : json -> string;
  (** [str(e)] *)
  str_of_exn : exn -> string;
  (** pydantic's lax-mode conversion to [int] of a value that is not an
      [int]: the integer, or the type of the error *)
  coerce_int : json -> string + Z
}.

(** ** schema.py: the declared models and their validation

    Calling a model class on keyword arguments validates every declared
    field (pydantic v2, lax mode, extra keys ignored) and raises one
    [ValidationError] that lists all the fields that failed.  No [Field] of the four models declares a bound
    ([ge], [le], [min_length], ...): the numeric range and the list sizes
    appear in the [description] texts only. *)

Record WorkExperience : Type := mkWorkExperience {
  title : string;
  company : string;
  years : string;
  (** the field [summary]; [ResumeProfile] has one of that name too *)
  exp_summary : string
}.

Record ResumeProfile : Type := mkResumeProfile {
  name : string;
  email : string;
  summary : string;
  skills : list string;
  experience : list WorkExperience
}.

Record OptimizationReport : Type := mkOptimizationReport {
  match_score : Z;
  keyword_gaps : list string;
  suggestions : list string
}.

Record InterviewSettings : Type := mkInterviewSettings {
  role : string;
  type : string;
  status : string;
  history : list string
}.

Module Pydantic.

(** The errors of a value, or the validated value. *)
Definition validated (A : Type) : Type := (list ErrorDetails + A)%type.

Definition fail {A : Type} (ty : string) : validated A :=
  inl [mkError ty []].

(** Prefix the location of every error with [item]. *)
Definition at_loc {A : Type} (item : loc_item) (v : validated A) : validated A :=
  match v with
  | inl errs => inl (map (fun e => mkError (err_type e) (item :: err_loc e)) errs)
  | inr a => inr a
  end.

(** Apply a validated constructor to a validated argument; the errors of
    both sides are kept, in field order. *)
Definition ap {A B : Type} (f : validated (A -> B)) (x : validated A) : validated B :=
  match f, x with
  | inr g, inr a => inr (g a)
  | inl e1, inl e2 => inl (e1 ++ e2)%list
  | inl e1, inr _ => inl e1
  | inr _, inl e2 => inl e2
  end.

Notation "f <*> x" := (ap f x) (at level 52, left associativity).

(** [str]: only a string is accepted. *)
Definition validate_str (v : json) : validated string :=
  match v with
  | JStr s => inr s
  | _ => fail "string_type"
  end.

(** [int]: an integer as it is; any other value goes through the lax
    conversion. *)
Definition validate_int {lib : PyLib} (v : json) : validated Z :=
  match v with
  | JInt z => inr z
  | _ => match coerce_int v with
         | inr z => inr z
         | inl ty => fail ty
         end
  end.

(** The items of a list from index [i] on, each at its own location. *)
Fixpoint validate_items {A : Type} (item : json -> validated A) (i : nat)
    (xs : list json) : validated (list A) :=
  match xs with
  | [] => inr []
  | x :: rest =>
      inr cons <*> at_loc (LIndex i) (item x) <*> validate_items item (S i) rest
  end.

(** [List[T]]: only a list is accepted, and every item must validate. *)
Definition validate_list {A : Type} (item : json -> validated A) (v : json)
    : validated (list A) :=
  match v with
  | JList xs => validate_items item 0 xs
  | _ => fail "list_type"
  end.

(** A field without default: absent is the error [missing]. *)
Definition required {A : Type} (key : string) (item : json -> validated A)
    (kwargs : list (string * json)) : validated A :=
  match lookup key kwargs with
  | None => inl [mkError "missing" [LField key]]
  | Some v => at_loc (LField key) (item v)
  end.

(** A field with [default=d]: absent is [d]. *)
Definition optional {A : Type} (key : string) (item : json -> validated A)
    (d : A) (kwargs : list (string * json)) : validated A :=
  match lookup key kwargs with
  | None => inr d
  | Some v => at_loc (LField key) (item v)
  end.

Definition WorkExperience_fields (kwargs : list (string * json))
    : validated WorkExperience :=
  inr mkWorkExperience
    <*> required "title" validate_str kwargs
    <*> required "company" validate_str kwargs
    <*> required "years" validate_str kwargs
    <*> required "summary" validate_str kwargs.

(** A nested model: only a dict is accepted. *)
Definition validate_WorkExperience (v : json) : validated WorkExperience :=
  match v with
  | JObj kwargs => WorkExperience_fields kwargs
  | _ => fail "model_type"
  end.

Definition ResumeProfile_fields (kwargs : list (string * json))
    : validated ResumeProfile :=
  inr mkResumeProfile
    <*> required "name" validate_str kwargs
    <*> required "email" validate_str kwargs
    <*> required "summary" validate_str kwargs
    <*> required "skills" (validate_list validate_str) kwargs
    <*> required "experience" (validate_list validate_WorkExperience) kwargs.

Definition OptimizationReport_fields {lib : PyLib} (kwargs : list (string * json))
    : validated OptimizationReport :=
  inr mkOptimizationReport
    <*> required "match_score" validate_int kwargs
    <*> required "keyword_gaps" (validate_list validate_str) kwargs
    <*> required "suggestions" (validate_list validate_str) kwargs.

Definition InterviewSettings_fields (kwargs : list (string * json))
    : validated InterviewSettings :=
  inr mkInterviewSettings
    <*> required "role" validate_str kwargs
    <*> required "type" validate_str kwargs
    <*> optional "status" validate_str "ready" kwargs
    <*> optional "history" (validate_list validate_str) [] kwargs.

(** The call of a model class: the instance, or [ValidationError]. *)
Definition init {A : Type} (title : string) (v : validated A) : outcome A :=
  match v with
  | inr a => Return a
  | inl errs => Raise (ValidationError title errs)
  end.

End Pydantic.

(** The call of [ResumeProfile] on keyword arguments, and its siblings. *)
Definition ResumeProfile_init (kwargs : list (string * json)) : outcome ResumeProfile :=
  Pydantic.init "ResumeProfile" (Pydantic.ResumeProfile_fields kwargs).

Definition OptimizationReport_init {lib : PyLib} (kwargs : list (string * json))
    : outcome OptimizationReport :=
  Pydantic.init "OptimizationReport" (Pydantic.OptimizationReport_fields kwargs).

Definition InterviewSettings_init (kwargs : list (string * json))
    : outcome InterviewSettings :=
  Pydantic.init "InterviewSettings" (Pydantic.InterviewSettings_fields kwargs).

(** [model.model_dump()] *)
Definition WorkExperience_dump (e : WorkExperience) : json :=
  JObj [("title", JStr (title e)); ("company", JStr (company e));
        ("years", JStr (years e)); ("summary", JStr (exp_summary e))].

Definition ResumeProfile_dump (p : ResumeProfile) : json :=
  JObj [("name", JStr (name p)); ("email", JStr (email p));
        ("summary", JStr (summary p));
        ("skills", JList (map JStr (skills p)));
        ("experience", JList (map WorkExperience_dump (experience p)))].

(** [model.model_dump_json()] *)
Definition model_dump_json {lib : PyLib} (p : ResumeProfile) : string :=
  json_dumps (ResumeProfile_dump p).

(** The line feed of Python's string escapes. *)
Definition nl : string := String (ascii_of_nat 10) EmptyString.

(** ** The document libraries, as far as the renderers drive them *)

Module Reportlab.

Inductive style_value : Type :=
| SNum (q : Q)
| SInt (z : Z)
| SName (s : string)
| SColor (hex : string).

(** A paragraph style: its name and the attributes this code sets; every
    other attribute keeps the library's default. *)
Record ParagraphStyle : Type := mkStyle {
  style_name : string;
  style_attrs : list (string * style_value)
}.

Definition StyleSheet : Type := list ParagraphStyle.

Definition getSampleStyleSheet : StyleSheet :=
  map (fun n => mkStyle n [])
    ["Normal"; "BodyText"; "Italic"; "Heading1"; "Title"; "Heading2";
     "Heading3"; "Heading4"; "Heading5"; "Heading6"; "Bullet"; "Definition";
     "Code"; "UnorderedList"; "OrderedList"].

(** [styles[name]] *)
Fixpoint styles_get (styles : StyleSheet) (n : string) : outcome ParagraphStyle :=
  match styles with
  | [] => Raise (KeyError n)
  | st :: rest => if String.eqb (style_name st) n then Return st else styles_get rest n
  end.

(** [styles.add(style)]: a name already in the sheet is a [KeyError]. *)
Definition styles_add (styles : StyleSheet) (st : ParagraphStyle) : outcome StyleSheet :=
  match styles_get styles (style_name st) with
  | Return _ => Raise (KeyError (style_name st))
  | Raise _ => Return (styles ++ [st])%list
  end.

(** [styles[name].attr = v]: the style object in the sheet is updated. *)
Fixpoint styles_setattr (styles : StyleSheet) (n attr : string) (v : style_value)
    : StyleSheet :=
  match styles with
  | [] => []
  | st :: rest =>
      if String.eqb (style_name st) n
      then mkStyle n ((attr, v) :: style_attrs st) :: rest
      else st :: styles_setattr rest n attr v
  end.

(** [ListItem(Paragraph(text, style), bulletText=...)] *)
Record ListItem : Type := mkListItem {
  item_text : string;
  item_style : ParagraphStyle;
  bulletText : option string
}.

Inductive Flowable : Type :=
| Paragraph (markup : string) (style : ParagraphStyle)
| Spacer (width height : Q)
| ListFlowable (items : list ListItem) (bulletType start : string).

(** [SimpleDocTemplate(buffer, ...)] once [build(Story)] has run: page
    size, margins (left, right, top, bottom) and the story. *)
Record PdfDocument : Type := mkPdf {
  pagesize : Q * Q;
  margins : Q * Q * Q * Q;
  story : list Flowable
}.

Definition inch : Q := 72.
Definition letter : Q * Q := (612, 792)%Q.

(** The text a reader of the document gets: one line per paragraph and per
    list item, holding the markup the code wrote. *)
Definition flowable_lines (f : Flowable) : list string :=
  match f with
  | Paragraph markup _ => [markup]
  | Spacer _ _ => []
  | ListFlowable items _ _ => map item_text items
  end.

Definition document_text (d : PdfDocument) : string :=
  PyStr.join nl (flat_map flowable_lines (story d)).

End Reportlab.

Module Docx.

Record Run : Type := mkRun {
  run_text : string;
  bold : option bool;
  italic : option bool;
  font_size : option Z
}.

Inductive Block : Type :=
| Para (runs : list Run) (style : option string) (alignment : option Z)
| Heading (heading_text : string) (level : Z).

(** The body of the document, in order. *)
Definition Document : Type := list Block.

Definition plain (s : string) : Run := mkRun s None None None.

(** [document.add_paragraph(text, style)]: an empty text adds no run. *)
Definition add_paragraph (text : string) (style : option string) : Block :=
  Para (if PyStr.falsy text then [] else [plain text]) style None.

Definition WD_ALIGN_PARAGRAPH_CENTER : Z := 1.

(** [block.alignment = a] *)
Definition aligned (a : Z) (b : Block) : Block :=
  match b with
  | Para runs st _ => Para runs st (Some a)
  | Heading t l => Heading t l
  end.

Definition block_text (b : Block) : string :=
  match b with
  | Para runs _ _ => String.concat EmptyString (map run_text runs)
  | Heading t _ => t
  end.

(** The text a reader of the document gets: one line per paragraph. *)
Definition document_text (d : Document) : string :=
  PyStr.join nl (map block_text d).

End Docx.

(** ** What Unicode and the document libraries decide

    [upper] and [strip] are Python's over all of Unicode; [PyStr.upper] and
    [PyStr.strip] are exact on strings of ASCII bytes.  reportlab parses
    the text of every paragraph as markup and python-docx hands the text of
    every run to its XML library: each raises, a [ValueError], on text it
    does not accept.  What [upper] and [strip] give beyond ASCII, and what
    the two libraries do with a text, are the fields of [DocLib]. *)

Class DocLib : Type := {
  (** [s.upper()] for a string that is not all ASCII *)
  upper_beyond_ascii : string -> string;
  (** [s.strip()] for a string that is not all ASCII *)
  strip_beyond_ascii : string -> string;
  (** what [Paragraph(text, style)] does with [text] when the paragraph
      is made: nothing, or the exception it raises *)
  parse_paragraph : string -> outcome unit;
  (** what python-docx does when it stores a text that is not empty in
      a run: nothing, or the exception it raises *)
  store_run : string -> outcome unit
}.

Definition returns {A : Type} (o : outcome A) : bool :=
  match o with Return _ => true | Raise _ => false end.


Definition run_accepts {doc : DocLib} (text : string) : bool :=
  returns (store_run text).

Fixpoint is_ascii (s : string) : bool :=
  match s with
  | EmptyString => true
  | String c r => (nat_of_ascii c <? 128)%nat && is_ascii r
  end.

(** [s.upper()] *)
Definition py_upper {doc : DocLib} (s : string) : string :=
  if is_ascii s then PyStr.upper s else upper_beyond_ascii s.

(** [s.strip()] *)
Definition py_strip {doc : DocLib} (s : string) : string :=
  if is_ascii s then PyStr.strip s else strip_beyond_ascii s.

(** ** The collaborators and the state the code runs in *)

Inductive model_class : Type :=
| cls_ResumeProfile
| cls_OptimizationReport.

(** [types.GenerateContentConfig(...)] *)
Record GenerateContentConfig : Type := mkConfig {
  response_mime_type : string;
  response_schema : model_class
}.

(** The response of the generative call; [text] may be [None]. *)
Record GenerateContentResponse : Type := mkResponse {
  text : option string
}.

(** [client.models.generate_content(model=..., contents=..., config=...)]:
    one outbound call, which answers or raises. *)
Record GeminiClient : Type := mkGemini {
  generate_content :
    string -> list string -> option GenerateContentConfig ->
    outcome GenerateContentResponse
}.

(** The persistence client; the placeholder functions only test it. *)
Record SupabaseClient : Type := mkSupabase {
  supabase_url : string
}.

(** The message handed to [emails.send]. *)
Record EmailParams : Type := mkEmail {
  email_from : string;
  email_to : string;
  email_subject : string;
  email_html : string
}.

(** The Resend SDK: the constructor [Resend(api_key=...)] and, on the client
    it returns, [emails.send(params)]; either may raise. *)
Record ResendClient : Type := mkResendClient {
  emails_send : EmailParams -> outcome unit
}.

(** What a download button offers: the bytes of a text, or the buffer a
    renderer returned. *)
Inductive download_data : Type :=
| text_bytes (s : string)
| docx_bytes (d : Docx.Document)
| pdf_bytes (d : Reportlab.PdfDocument).

(** Streamlit calls and [print], in the order they happen. *)
Inductive event : Type :=
| print (s : string)
| st_warning (s : string)
| st_error (s : string)
| st_success (s : string)
| st_info (s : string)
| st_subheader (s : string)
| st_markdown (s : string)
| st_spinner (s : string)
| st_metric (label value delta : string)
| st_json (v : json)
| st_write (s : string)
| st_columns (n : nat)
| st_download_button (label : string) (data : download_data)
    (file_name key mime : string).

(** [st.session_state] *)
Record SessionState : Type := mkSession {
  parsed_profile : option ResumeProfile;
  interview_settings : option InterviewSettings;
  chat_history : list (string * string);
  final_report_display : option string
}.

Record World : Type := mkWorld {
  (** [app.client] *)
  client : option GeminiClient;
  (** [db_interface.supabase] *)
  supabase : option SupabaseClient;
  (** [alert_sender.RESEND_API_KEY] *)
  RESEND_API_KEY : option string;
  (** [resend.Resend] *)
  Resend : string -> outcome ResendClient;
  session_state : SessionState;
  (** everything printed or shown so far *)
  shown : list event
}.

(** ** The monad of the effectful functions: state and exceptions *)

Definition M (A : Type) : Type := World -> outcome A * World.

Definition ret {A : Type} (a : A) : M A := fun w => (Return a, w).

Definition raise {A : Type} (e : exn) : M A := fun w => (Raise e, w).

Definition bind {A B : Type} (m : M A) (k : A -> M B) : M B :=
  fun w =>
    match m w with
    | (Return a, w') => k a w'
    | (Raise e, w') => (Raise e, w')
    end.

(** [try: m  except Exception as e: handler e] *)
Definition try_except {A : Type} (m : M A) (handler : exn -> M A) : M A :=
  fun w =>
    match m w with
    | (Return a, w') => (Return a, w')
    | (Raise e, w') => handler e w'
    end.

(** A pure computation that may raise. *)
Definition lift {A : Type} (o : outcome A) : M A := fun w => (o, w).

Definition get {A : Type} (f : World -> A) : M A := fun w => (Return (f w), w).

Definition emit (ev : event) : M unit :=
  fun w =>
    (Return tt,
     mkWorld (client w) (supabase w) (RESEND_API_KEY w) (Resend w)
             (session_state w) (shown w ++ [ev])%list).

Notation "x <- m ;; k" := (bind m (fun x => k))
  (at level 61, m at next level, right associativity).
Notation "m ;; k" := (bind m (fun _ => k))
  (at level 61, right associativity).

(** Truth value of a Python object. *)
Definition truthy (v : json) : bool :=
  match v with
  | JNull => false
  | JBool b => b
  | JInt z => negb (z =? 0)%Z
  | JFloat f => match f with S754_zero _ => false | _ => true end
  | JStr s => negb (PyStr.falsy s)
  | JList xs => match xs with [] => false | _ => true end
  | JObj kvs => match kvs with [] => false | _ => true end
  end.

(** ** app.py: the core AI functions *)

Section App.
Context {lib : PyLib}.

(** [json.loads(response.text)]: a [None] text is a [TypeError]. *)
Definition loads_text (t : option string) : outcome json :=
  match t with
  | Some s => json_loads s
  | None => Raise (TypeError "the JSON object must be str, bytes or bytearray, not NoneType")
  end.

(** Unpacking [d] into keyword arguments: [d] must be a mapping. *)
Definition kwargs_of (d : json) : outcome (list (string * json)) :=
  match d with
  | JObj kvs => Return kvs
  | _ => Raise (TypeError "argument after ** must be a mapping")
  end.

Definition resume_prompt : string :=
  "You are an expert career data analyst. Your job is to extract all relevant "
  ++ "professional information from the user's resume text and structure it "
  ++ "according to the provided JSON schema...".

Definition parse_resume_to_json (resume_text : string) : M (option ResumeProfile) :=
  c <- get client ;;
  match c with
  | None => emit (st_warning "AI client not available.") ;; ret None
  | Some cl =>
      try_except
        (response <- lift (generate_content cl "gemini-2.5-flash"
                     [resume_prompt ++ "---RESUME TEXT---" ++ nl ++ resume_text]
                     (Some (mkConfig "application/json" cls_ResumeProfile))) ;;
         d <- lift (loads_text (text response)) ;;
         kwargs <- lift (kwargs_of d) ;;
         p <- lift (ResumeProfile_init kwargs) ;;
         ret (Some p))
        (fun e => emit (st_error ("AI Parsing Error: " ++ str_of_exn e)) ;; ret None)
  end.

Definition optimization_prompt : string :=
  "You are an expert Applicant Tracking System (ATS)... (omitted prompt body)".

(** Returns what [json.loads] gave, unvalidated; Python's [None] is [JNull].
    [OptimizationReport] is only sent along as the requested response
    schema; no instance of it is ever built. *)
Definition generate_optimization_report (profile_json job_description : string)
    : M json :=
  c <- get client ;;
  match c with
  | None => ret JNull
  | Some cl =>
      try_except
        (response <- lift (generate_content cl "gemini-2.5-flash"
                     [optimization_prompt]
                     (Some (mkConfig "application/json" cls_OptimizationReport))) ;;
         lift (loads_text (text response)))
        (fun e => emit (st_error ("Optimization API Error: " ++ str_of_exn e)) ;;
                  ret JNull)
  end.

(** [d.get(key, default)]; only a dict has the method. *)
Definition dict_get (d : json) (key : string) (default : json) : outcome json :=
  match d with
  | JObj kvs => Return (match lookup key kvs with Some v => v | None => default end)
  | _ => Raise (AttributeError "object has no attribute 'get'")
  end.

Fixpoint chars (s : string) : list json :=
  match s with
  | EmptyString => []
  | String c r => JStr (String c EmptyString) :: chars r
  end.

(** [for x in v]: the items of a list, the characters of a string, the keys
    of a dict. *)
Definition iterate (v : json) : outcome (list json) :=
  match v with
  | JList xs => Return xs
  | JStr s => Return (chars s)
  | JObj kvs => Return (map (fun kv => JStr (fst kv)) kvs)
  | _ => Raise (TypeError "object is not iterable")
  end.

(** The handler of the button "Analyze Profile & Get Score". *)
Definition analyze_profile_button (target_job_description : string) : M unit :=
  ss <- get session_state ;;
  match parsed_profile ss with
  | None => emit (st_error "Please run the 'Generate & Publish Portfolio' step first to parse your resume data.")
  | Some profile =>
      if PyStr.falsy target_job_description
      then emit (st_error "Please paste the Job Description to perform the analysis.")
      else
        emit (st_spinner "🔬 Performing Keyword Gap Analysis and Optimization...") ;;
        optimization_result <-
          generate_optimization_report (model_dump_json profile) target_job_description ;;
        if truthy optimization_result then
          emit (st_success "Analysis complete!") ;;
          score <- lift (dict_get optimization_result "match_score" (JInt 0)) ;;
          gaps <- lift (dict_get optimization_result "keyword_gaps" (JList [JStr "N/A"])) ;;
          suggestions <- lift (dict_get optimization_result "suggestions" (JList [JStr "N/A"])) ;;
          emit (st_metric "Match Confidence Score" (format_value score ++ "%")
                          "High score = high ATS compatibility") ;;
          emit (st_subheader "Key Improvement Areas (Gaps)") ;;
          emit (st_warning "⚠️ The following keywords/skills from the JD are missing or underrepresented in your profile:") ;;
          gap_items <- lift (iterate gaps) ;;
          emit (st_markdown (PyStr.join nl
                  (map (fun gap => "- **" ++ format_value gap ++ "**") gap_items))) ;;
          emit (st_subheader "Optimization Suggestions") ;;
          emit (st_info "💡 Use these suggestions to update your profile and maximize your score:") ;;
          suggestion_items <- lift (iterate suggestions) ;;
          emit (st_markdown (PyStr.join nl
                  (map (fun s => "- " ++ format_value s) suggestion_items)))
        else emit (st_error "Optimization analysis failed.")
  end.

End App.

(** Replacing one field of the world. *)
Definition set_supabase (s : option SupabaseClient) (w : World) : World :=
  mkWorld (client w) s (RESEND_API_KEY w) (Resend w) (session_state w) (shown w).

(** [if x:] for an environment variable: absent and empty are both falsy. *)
Definition env_set (v : option string) : option string :=
  match v with
  | Some s => if PyStr.falsy s then None else Some s
  | None => None
  end.

(** ** db_interface.py *)

Section DbInterface.
Context {lib : PyLib}.

(** The module body: [supabase] starts as [None] and is set only when both
    credentials are there and [create_client] does not raise. *)
Definition db_interface_init (SUPABASE_URL SUPABASE_SERVICE_KEY : option string)
    (create_client : string -> string -> outcome SupabaseClient) : M unit :=
  (fun w => (Return tt, set_supabase None w)) ;;
  match env_set SUPABASE_URL, env_set SUPABASE_SERVICE_KEY with
  | Some url, Some key =>
      try_except
        (c <- lift (create_client url key) ;;
         fun w => (Return tt, set_supabase (Some c) w))
        (fun e => emit (print ("Error initializing Supabase client: " ++ str_of_exn e)))
  | _, _ =>
      emit (print "Warning: Supabase credentials not found. Database functions will be disabled.")
  end.

(** Placeholder for saving the structured profile. *)
Definition save_user_profile (user_id : string) (profile_json : json) : M bool :=
  s <- get supabase ;;
  match s with
  | None => ret false
  | Some _ =>
      emit (print ("Database simulation: Profile for " ++ user_id ++ " saved.")) ;;
      ret true
  end.

(** Placeholder for saving job alert preferences. *)
Definition save_user_alert_preferences (user_id keywords frequency : string) : M bool :=
  s <- get supabase ;;
  match s with
  | None => ret false
  | Some _ =>
      emit (print ("Database simulation: Alerts for " ++ user_id ++ " saved.")) ;;
      ret true
  end.

End DbInterface.

(** ** alert_sender.py *)

Section AlertSender.
Context {lib : PyLib}.

(** The double quote and the indentation of the HTML template. *)
Definition dq : string := String (ascii_of_nat 34) EmptyString.
Definition indent8 : string := "        ".
Definition indent12 : string := "            ".

(** [job[key]]: a dict gives the value or [KeyError]; nothing else can be
    indexed by a string. *)
Definition getitem (job : json) (key : string) : outcome json :=
  match job with
  | JObj kvs =>
      match lookup key kvs with
      | Some v => Return v
      | None => Raise (KeyError key)
      end
  | _ => Raise (TypeError "indices must be integers, or object is not subscriptable")
  end.

(** The block of one job, its five fields read in the order of the
    template. *)
Definition job_block (job : json) : outcome string :=
  obind (getitem job "title") (fun t =>
  obind (getitem job "company_name") (fun c =>
  obind (getitem job "match_score") (fun m =>
  obind (getitem job "perfect_fit_reason") (fun r =>
  obind (getitem job "source_url") (fun u =>
  Return (
    nl ++ indent8 ++ "<div style=" ++ dq ++ "border: 1px solid #ddd; padding: 15px; margin-bottom: 20px; border-radius: 8px;" ++ dq ++ ">"
    ++ nl ++ indent12 ++ "<h3 style=" ++ dq ++ "color: #007bff; margin-top: 0;" ++ dq ++ ">"
       ++ format_value t ++ " at " ++ format_value c ++ "</h3>"
    ++ nl ++ indent12 ++ "<p style=" ++ dq ++ "font-weight: bold;" ++ dq ++ ">Match Score: "
       ++ format_value m ++ "%</p>"
    ++ nl ++ indent12 ++ "<p><b>Why It's a Fit:</b> " ++ format_value r ++ "</p>"
    ++ nl ++ indent12 ++ "<p><a href=" ++ dq ++ format_value u ++ dq ++ " style=" ++ dq
       ++ "background-color: #28a745; color: white; padding: 10px 15px; text-decoration: none; border-radius: 5px;"
       ++ dq ++ ">Apply Now</a></p>"
    ++ nl ++ indent8 ++ "</div>"
    ++ nl ++ indent8)))))).

Fixpoint format_jobs_from (html_content : string) (top_jobs : list json)
    : outcome string :=
  match top_jobs with
  | [] => Return html_content
  | job :: rest =>
      obind (job_block job) (fun b => format_jobs_from (html_content ++ b) rest)
  end.

(** Formats the jobs and their scores into HTML for the email body. *)
Definition format_jobs_for_email (top_jobs : list json) : outcome string :=
  format_jobs_from "<h2>Your Personalized Job Alerts Are Ready!</h2>" top_jobs.

Definition alert_email (recipient_email email_html : string) : EmailParams :=
  mkEmail "alerts@yourdomain.com" recipient_email
          "🎯 Your Top 3 Personalized Job Matches from PortfolioAI!" email_html.

(** Sends the job alert using the Resend SDK. *)
Definition send_job_alert_email (recipient_email : string) (top_jobs : list json)
    : M bool :=
  k <- get RESEND_API_KEY ;;
  match env_set k with
  | None => emit (print "Resend API Key is missing. Email skipped.") ;; ret false
  | Some key =>
      try_except
        (mk <- get Resend ;;
         resend_client <- lift (mk key) ;;
         email_html <- lift (format_jobs_for_email top_jobs) ;;
         lift (emails_send resend_client (alert_email recipient_email email_html)) ;;
         emit (print ("Successfully sent job alert to " ++ recipient_email)) ;;
         ret true)
        (fun e => emit (print ("Resend email failure: " ++ str_of_exn e)) ;; ret false)
  end.

End AlertSender.

(** ** app.py: the document renderers *)

Section Renderers.
Context {doc : DocLib}.
Import Reportlab.

(** [Paragraph(text, style)]: the text is parsed when the paragraph is
    made. *)
Definition new_Paragraph (text : string) (style : ParagraphStyle) : outcome Flowable :=
  let* _ := parse_paragraph text in
  Return (Paragraph text style).

(** python-docx stores a carriage return as the line break it stores for a
    line feed, so that it reads back as a line feed. *)
Fixpoint cr_to_lf (s : string) : string :=
  match s with
  | EmptyString => EmptyString
  | String c r =>
      String (if Ascii.eqb c (ascii_of_nat 13) then ascii_of_nat 10 else c)
             (cr_to_lf r)
  end.

(** The text python-docx stores in a run, as it reads back; an empty text
    is not stored. *)
Definition docx_text (text : string) : outcome string :=
  if PyStr.falsy text then Return EmptyString
  else let* _ := store_run text in
       Return (cr_to_lf text).

(** [paragraph.add_run(text)], with the attributes set on the run after. *)
Definition docx_add_run (text : string) (bold italic : option bool)
    (font_size : option Z) : outcome Docx.Run :=
  let* t := docx_text text in
  Return (Docx.mkRun t bold italic font_size).

(** [document.add_paragraph(text, style)] *)
Definition docx_add_paragraph (text : string) (style : option string)
    : outcome Docx.Block :=
  let* t := docx_text text in
  Return (Docx.add_paragraph t style).

(** A line of a summary that [if line.strip()] lets through. *)
Definition not_blank (line : string) : bool := negb (PyStr.falsy (py_strip line)).

(** One bullet of the PDF. *)
Definition pdf_bullet_item (styles : StyleSheet) (line : string)
    : outcome (list ListItem) :=
  let* normal_small := styles_get styles "NormalSmall" in
  let* _ := new_Paragraph (py_strip line) normal_small in
  Return [mkListItem (py_strip line) normal_small (Some "•")].

(** What one turn of the loop over [profile.experience] appends: the
    middle dots are removed from the summary, and every line that is not
    blank becomes a bullet. *)
Definition pdf_v2_entry (styles : StyleSheet) (exp : WorkExperience)
    : outcome (list Flowable) :=
  let* s1 := styles_get styles "NormalSmall" in
  let* heading := new_Paragraph ("<b>" ++ title exp ++ "</b> at " ++ company exp) s1 in
  let* s2 := styles_get styles "Italic" in
  let* dates := new_Paragraph (years exp) s2 in
  let clean_summary := py_strip (PyStr.remove "·" (exp_summary exp)) in
  let* bullet_items :=
    for_each (pdf_bullet_item styles)
             (filter not_blank (PyStr.split (ascii_of_nat 10) clean_summary)) in
  Return ([heading; dates]
          ++ (match bullet_items with
              | [] => []
              | _ => [ListFlowable bullet_items "bullet" "bullet"]
              end)
          ++ [Spacer 1 ((1 # 10) * inch)])%list.

(** The sample style sheet with the four styles of the renderer added. *)
Definition v2_styles : outcome StyleSheet :=
  let styles := getSampleStyleSheet in
  let* styles := styles_add styles (mkStyle "HeadingName"
      [("fontName", SName "Helvetica-Bold"); ("fontSize", SInt 20);
       ("alignment", SInt 1); ("textColor", SColor "#007bff")]) in
  let* styles := styles_add styles (mkStyle "HeadingSection"
      [("fontName", SName "Helvetica-Bold"); ("fontSize", SInt 14);
       ("spaceBefore", SInt 12); ("spaceAfter", SInt 4);
       ("textColor", SColor "#333333")]) in
  let* styles := styles_add styles (mkStyle "NormalSmall"
      [("fontName", SName "Helvetica"); ("fontSize", SInt 10);
       ("leading", SInt 12)]) in
  styles_add styles (mkStyle "BulletStyle"
      [("fontName", SName "Helvetica"); ("fontSize", SInt 10);
       ("leftIndent", SNum ((1 # 4) * inch));
       ("bulletIndent", SNum (- (1 # 4) * inch));
       ("spaceBefore", SInt 0); ("spaceAfter", SInt 0)]).

(** The section headings are constants that reportlab accepts. *)
Definition pdf_v2_story (profile : ResumeProfile) : outcome (list Flowable) :=
  let* styles := v2_styles in
  let* heading_name := styles_get styles "HeadingName" in
  let* f_name := new_Paragraph (py_upper (name profile)) heading_name in
  let* italic := styles_get styles "Italic" in
  let* f_email := new_Paragraph (email profile) italic in
  let* section1 := styles_get styles "HeadingSection" in
  let* small1 := styles_get styles "NormalSmall" in
  let* f_summary := new_Paragraph (py_strip (summary profile)) small1 in
  let* section2 := styles_get styles "HeadingSection" in
  let* small2 := styles_get styles "NormalSmall" in
  let* f_skills :=
    new_Paragraph ("Skills: " ++ PyStr.join ", " (skills profile)) small2 in
  let* section3 := styles_get styles "HeadingSection" in
  let* entries := for_each (pdf_v2_entry styles) (experience profile) in
  Return ([f_name;
           f_email;
           Spacer 1 ((2 # 10) * inch);
           Paragraph "SUMMARY" section1;
           f_summary;
           Spacer 1 ((1 # 10) * inch);
           Paragraph "KEY SKILLS" section2;
           f_skills;
           Spacer 1 ((1 # 10) * inch);
           Paragraph "WORK EXPERIENCE" section3]
          ++ entries)%list.

(** Generates a PDF resume (V2 feature).  Every paragraph is parsed when
    it is made; [doc.build(Story)] then lays the story out, which for
    paragraphs, spacers and lists of paragraphs does not raise. *)
Definition generate_pdf_v2 (profile : ResumeProfile) : M PdfDocument :=
  Story <- lift (pdf_v2_story profile) ;;
  ret (mkPdf letter ((1 # 2) * inch, (1 # 2) * inch, (1 # 2) * inch, (1 # 2) * inch)%Q
             Story).

(** One bullet of the DOCX. *)
Definition docx_bullet (clean_line : string) : outcome (list Docx.Block) :=
  let* b := docx_add_paragraph clean_line (Some "List Bullet") in
  Return [b].

(** What one turn of the loop over [profile.experience] appends: the
    title line, then one bullet per line of the summary that is not empty
    once stripped. *)
Definition docx_v2_entry (exp : WorkExperience) : outcome (list Docx.Block) :=
  let* r_title := docx_add_run (title exp) (Some true) None None in
  let* r_rest :=
    docx_add_run (" | " ++ company exp ++ " (" ++ years exp ++ ")")
                 None (Some true) None in
  let* bullets :=
    for_each docx_bullet
             (filter (fun clean_line => negb (PyStr.falsy clean_line))
                     (map py_strip (PyStr.split (ascii_of_nat 10) (exp_summary exp)))) in
  Return (Docx.Para [r_title; r_rest] None None :: bullets).

(** The headings and the rule are constants that python-docx accepts. *)
Definition docx_v2_blocks (profile : ResumeProfile) : outcome (list Docx.Block) :=
  let* runner := docx_add_run (py_upper (name profile)) (Some true) None (Some 18%Z) in
  let* p_email := docx_add_paragraph (email profile) None in
  let* p_summary := docx_add_paragraph (py_strip (summary profile)) None in
  let* p_skills := docx_add_paragraph (PyStr.join ", " (skills profile)) None in
  let* entries := for_each docx_v2_entry (experience profile) in
  Return ([Docx.Para [runner] None (Some Docx.WD_ALIGN_PARAGRAPH_CENTER);
           Docx.aligned Docx.WD_ALIGN_PARAGRAPH_CENTER p_email;
           Docx.Para [Docx.mkRun (PyStr.times "—" 50) None None (Some 8%Z)] None None;
           Docx.Heading "SUMMARY" 2;
           p_summary;
           Docx.Heading "KEY SKILLS" 2;
           p_skills;
           Docx.Heading "EXPERIENCE" 2]
          ++ entries)%list.

(** Generates a DOCX resume (V2 feature). *)
Definition generate_docx_v2 (profile : ResumeProfile) : M Docx.Document :=
  document <- lift (docx_v2_blocks profile) ;;
  ret document.

End Renderers.

(** ** document_assets.py *)

Section DocumentAssets.
Context {doc : DocLib}.
Import Reportlab.

(** [docx.shared.Inches(x)]: a length in English Metric Units. *)
Definition Inches (x : Q) : Q := x * 914400.

(** [x * Inches], a float times the class itself: no such operation. *)
Definition float_times_class (x : Q) : outcome Q :=
  Raise (TypeError "unsupported operand type(s) for *: 'float' and 'type'").

(** What one turn of the loop over [profile.experience] appends. *)
Definition pdf_entry (styles : StyleSheet) (style_body : ParagraphStyle)
    (exp : WorkExperience) : outcome (list Flowable) :=
  let* heading3 := styles_get styles "Heading3" in
  let* heading :=
    new_Paragraph ("<b>" ++ title exp ++ "</b> at " ++ company exp) heading3 in
  let* italic := styles_get styles "Italic" in
  let* dates := new_Paragraph (years exp) italic in
  let* _ := new_Paragraph (exp_summary exp) style_body in
  let bullet_items := [mkListItem (exp_summary exp) style_body None] in
  let* h := float_times_class (1 # 10) in
  Return [heading; dates; ListFlowable bullet_items "bullet" "bullet"; Spacer 1 h].

(** The story of [generate_pdf]: the sample styles are restyled in place,
    the two header paragraphs are made, and the first spacer raises. *)
Definition pdf_story (profile : ResumeProfile) : outcome (list Flowable) :=
  let styles := getSampleStyleSheet in
  let* _ := styles_get styles "Heading1" in
  let styles := styles_setattr styles "Heading1" "fontSize" (SInt 20) in
  let styles := styles_setattr styles "Heading1" "textColor" (SColor "#007bff") in
  let styles := styles_setattr styles "Heading1" "alignment"
                  (SInt Docx.WD_ALIGN_PARAGRAPH_CENTER) in
  let* _ := styles_get styles "Heading2" in
  let styles := styles_setattr styles "Heading2" "fontSize" (SInt 14) in
  let styles := styles_setattr styles "Heading2" "spaceBefore" (SInt 10) in
  let styles := styles_setattr styles "Heading2" "spaceAfter" (SInt 5) in
  let styles := styles_setattr styles "Heading2" "textColor" (SColor "#333333") in
  let* _ := styles_get styles "Normal" in
  let styles := styles_setattr styles "Normal" "fontSize" (SInt 10) in
  let styles := styles_setattr styles "Normal" "spaceAfter" (SInt 5) in
  let* style_h1 := styles_get styles "Heading1" in
  let* style_h2 := styles_get styles "Heading2" in
  let* style_body := styles_get styles "Normal" in
  let* f_name := new_Paragraph (name profile) style_h1 in
  let* italic := styles_get styles "Italic" in
  let* f_email := new_Paragraph (email profile) italic in
  let Story := [f_name; f_email] in
  let* h := float_times_class (2 # 10) in
  let* f_summary := new_Paragraph (summary profile) style_body in
  let Story := (Story ++ [Spacer 1 h; Paragraph "SUMMARY" style_h2; f_summary])%list in
  let* h := float_times_class (1 # 10) in
  let* f_skills := new_Paragraph (PyStr.join ", " (skills profile)) style_body in
  let Story := (Story ++ [Spacer 1 h; Paragraph "KEY SKILLS" style_h2; f_skills])%list in
  let* h := float_times_class (1 # 10) in
  let Story := (Story ++ [Spacer 1 h; Paragraph "EXPERIENCE" style_h2])%list in
  let* entries := for_each (pdf_entry styles style_body) (experience profile) in
  Return (Story ++ entries)%list.

(** Generates a PDF resume using ReportLab. *)
Definition generate_pdf (profile : ResumeProfile) : M PdfDocument :=
  Story <- lift (pdf_story profile) ;;
  ret (mkPdf letter (Inches (1 # 2), Inches (1 # 2), Inches (1 # 2), Inches (1 # 2))
             Story).

(** What one turn of the loop over [profile.experience] appends.  The
    [italic] set on the paragraph of the dates is an attribute the
    paragraph object does not have; the document is not changed by it. *)
Definition docx_entry (exp : WorkExperience) : outcome (list Docx.Block) :=
  let* p_title :=
    docx_add_paragraph (title exp ++ " - " ++ company exp) (Some "List Bullet") in
  let* p_dates := docx_add_paragraph ("Dates: " ++ years exp) None in
  let* p_summary := docx_add_paragraph (exp_summary exp) None in
  Return [p_title; p_dates; p_summary].

Definition docx_blocks (profile : ResumeProfile) : outcome (list Docx.Block) :=
  let* runner := docx_add_run (name profile) (Some true) None (Some 18%Z) in
  let* p_email := docx_add_paragraph (email profile) None in
  let* p_summary := docx_add_paragraph (summary profile) None in
  let* p_skills := docx_add_paragraph (PyStr.join ", " (skills profile)) None in
  let* entries := for_each docx_entry (experience profile) in
  Return ([Docx.Para [runner] None (Some Docx.WD_ALIGN_PARAGRAPH_CENTER);
           Docx.aligned Docx.WD_ALIGN_PARAGRAPH_CENTER p_email;
           Docx.Para [Docx.mkRun (PyStr.times "â€”" 50) (Some true) None None] None None;
           Docx.Heading "Summary" 2;
           p_summary;
           Docx.Heading "Key Skills" 2;
           p_skills;
           Docx.Heading "Work Experience" 2]
          ++ entries)%list.

(** Generates an ATS-ready DOCX resume. *)
Definition generate_docx (profile : ResumeProfile) : M Docx.Document :=
  document <- lift (docx_blocks profile) ;;
  ret document.

End DocumentAssets.

(** ** app.py: the client, the input section and the other AI functions *)

Section AppRest.
Context {lib : PyLib} {doc : DocLib}.

(** The cached constructor of the generative client: no key, or a
    constructor that raises, gives [None] and a message. *)
Definition get_gemini_client (API_KEY : option string)
    (genai_Client : string -> outcome GeminiClient) : M (option GeminiClient) :=
  match env_set API_KEY with
  | None =>
      emit (st_warning "🚨 GEMINI_API_KEY not found. Some AI features will be disabled.") ;;
      ret None
  | Some key =>
      try_except
        (c <- lift (genai_Client key) ;; ret (Some c))
        (fun e => emit (st_error ("Error initializing Gemini client: " ++ str_of_exn e)) ;;
                  ret None)
  end.

(** An uploaded file: its name, and what each reading library gets out of
    it, the text of every page for [PdfReader(file).pages] and the text of
    every paragraph for [docx.Document(file).paragraphs]; either may raise. *)
Record UploadedFile : Type := mkUpload {
  file_name : string;
  pdf_pages : outcome (list string);
  docx_paragraphs : outcome (list string)
}.

Definition read_pdf (file : UploadedFile) : outcome string :=
  let* pages := pdf_pages file in
  Return (PyStr.join EmptyString pages).

Definition read_docx (file : UploadedFile) : outcome string :=
  let* paragraphs := docx_paragraphs file in
  Return (PyStr.join EmptyString (map (fun para_text => para_text ++ nl) paragraphs)).

(** [s.split('.')[-1]] *)
Definition file_extension_of (file_name : string) : string :=
  last (PyStr.split "." file_name) EmptyString.

(** The input section: the text to parse and the name of its source.  An
    uploaded file is read by its extension; pasted text counts only when
    there is no file. *)
Definition input_section (uploaded_file : option UploadedFile) (user_data : string)
    : M (string * string) :=
  match uploaded_file with
  | Some file =>
      let file_extension := file_extension_of (file_name file) in
      let parsing_source := "Uploaded " ++ py_upper file_extension ++ " File" in
      emit (st_spinner ("Reading text from " ++ file_name file ++ "...")) ;;
      if String.eqb file_extension "pdf" then
        resume_text_to_parse <- lift (read_pdf file) ;;
        ret (resume_text_to_parse, parsing_source)
      else if String.eqb file_extension "docx" then
        resume_text_to_parse <- lift (read_docx file) ;;
        ret (resume_text_to_parse, parsing_source)
      else ret (EmptyString, parsing_source)
  | None =>
      if PyStr.falsy user_data then ret (EmptyString, "Pasted Text")
      else ret (user_data, "Pasted Text")
  end.

(** [st.session_state.parsed_profile = profile] *)
Definition set_parsed_profile (profile : option ResumeProfile) : M unit :=
  fun w =>
    (Return tt,
     mkWorld (client w) (supabase w) (RESEND_API_KEY w) (Resend w)
       (mkSession profile (interview_settings (session_state w))
          (chat_history (session_state w))
          (final_report_display (session_state w)))
       (shown w)).

(** The text export built next to the download buttons. *)
Definition txt_resume_content (profile : ResumeProfile) : string :=
  "--- ATS-READY TEXT PROFILE ---" ++ nl ++ nl
  ++ "Name: " ++ name profile ++ nl
  ++ "Email: " ++ email profile ++ nl
  ++ "Summary:" ++ nl ++ summary profile ++ nl ++ nl
  ++ "Skills: " ++ PyStr.join ", " (skills profile) ++ nl ++ nl.

(** The block under [if st.session_state.parsed_profile:]: the profile is
    shown, then the three downloads are offered; the two renderers run
    here, and what they raise is not caught.  The text written before the
    summary of an entry is a space, a no-break space, an asterisk and a
    space. *)
Fixpoint show_experience (exps : list WorkExperience) : M unit :=
  match exps with
  | [] => ret tt
  | exp :: more =>
      emit (st_markdown ("**- " ++ title exp ++ "** at " ++ company exp
                         ++ " (" ++ years exp ++ ")")) ;;
      emit (st_write ("  * " ++ exp_summary exp)) ;;
      show_experience more
  end.

Definition show_profile (template_choice : string) (profile : ResumeProfile) : M unit :=
  emit (st_success ("🎉 Success! Data parsed and portfolio generated using **"
                    ++ template_choice ++ "** template.")) ;;
  emit (st_subheader "✅ Profile Data Stored (Raw JSON Review)") ;;
  emit (st_json (ResumeProfile_dump profile)) ;;
  emit (st_subheader "Live Preview: Key Data Points (For Review)") ;;
  emit (st_markdown ("**Name:** " ++ name profile)) ;;
  emit (st_markdown ("**Email:** " ++ email profile)) ;;
  emit (st_markdown "**Summary:**") ;;
  emit (st_write (summary profile)) ;;
  emit (st_markdown "**Key Skills:**") ;;
  emit (st_write (PyStr.join ", " (skills profile))) ;;
  emit (st_markdown "**Work Experience:**") ;;
  show_experience (experience profile) ;;
  emit (st_subheader "Actionable Assets") ;;
  emit (st_info "Download buttons below provide static placeholders for V1 stability.") ;;
  emit (st_columns 3) ;;
  emit (st_download_button "Download Profile as Text File (.txt)"
          (text_bytes (txt_resume_content profile))
          "ATS_Resume.txt" "profile_download_txt" "text/plain") ;;
  docx_buffer <- generate_docx_v2 profile ;;
  emit (st_download_button "Download Profile as Word Document (.docx)"
          (docx_bytes docx_buffer)
          "ATS_Resume_V2.docx" "profile_download_docx"
          "application/vnd.openxmlformats-officedocument.wordprocessingml.document") ;;
  pdf_buffer <- generate_pdf_v2 profile ;;
  emit (st_download_button "Download Profile as PDF (.pdf)"
          (pdf_bytes pdf_buffer)
          "ATS_Resume_V2.pdf" "profile_download_pdf" "application/pdf").

(** The first statement under the button: the two guards, then the
    extraction, whose result, a record or [None], is stored as the
    session's profile. *)
Definition parse_and_store (resume_text_to_parse parsing_source : string) : M unit :=
  if PyStr.falsy resume_text_to_parse
  then emit (st_error "Please provide content either by uploading a file or pasting text.")
  else
    c <- get client ;;
    match c with
    | None => emit (st_error "Cannot run AI features. Gemini client failed to initialize.")
    | Some _ =>
        emit (st_spinner ("🧠 Analyzing and Structuring Data from " ++ parsing_source
                          ++ " with Gemini 2.5 Flash...")) ;;
        profile <- parse_resume_to_json resume_text_to_parse ;;
        set_parsed_profile profile
    end.

(** The handler of the button "Generate & Publish Portfolio": after the
    first statement, whichever of its branches ran, the profile the session
    holds is shown. *)
Definition generate_button (resume_text_to_parse parsing_source template_choice : string)
    : M unit :=
  parse_and_store resume_text_to_parse parsing_source ;;
  ss <- get session_state ;;
  match parsed_profile ss with
  | Some profile => show_profile template_choice profile
  | None => ret tt
  end.

Definition cover_letter_prompt : string :=
  "You are an expert career coach and professional writer. Your task is to write a highly persuasive... (omitted prompt body)".

(** Returns the text of the response, which may be [None]; without a client
    the return value is an error text, after a failed call it is [None]. *)
Definition generate_cover_letter (profile_json job_description tone : string)
    : M (option string) :=
  c <- get client ;;
  match c with
  | None => ret (Some "Error: Gemini client not initialized.")
  | Some cl =>
      try_except
        (response <- lift (generate_content cl "gemini-2.5-flash"
                             [cover_letter_prompt] None) ;;
         ret (text response))
        (fun e => emit (st_error ("Cover Letter API Error: " ++ str_of_exn e)) ;;
                  ret None)
  end.

(** [v.upper()]: only a string has the method. *)
Definition str_upper (v : json) : outcome string :=
  match v with
  | JStr s => Return (py_upper s)
  | _ => Raise (AttributeError "object has no attribute 'upper'")
  end.

(** One line of the transcript: the role in upper case between asterisks,
    then the text. *)
Definition transcript_line (m : json) : outcome (list string) :=
  let* r := getitem m "role" in
  let* R := str_upper r in
  let* t := getitem m "text" in
  Return ["**" ++ R ++ ":** " ++ format_value t].

Definition feedback_prompt : string :=
  "You are a professional Interview Performance Analyst. Analyze the following interview transcript... (omitted prompt body)".

(** The transcript is built before the [try]: a malformed turn raises to
    the caller, while a failed call gives the fallback text. *)
Definition generate_final_feedback (history : list json)
    (role type profile_json : string) : M (option string) :=
  c <- get client ;;
  match c with
  | None => ret (Some "Error: Gemini client not initialized.")
  | Some cl =>
      lines <- lift (for_each transcript_line history) ;;
      let transcript := PyStr.join nl lines in
      try_except
        (response <- lift (generate_content cl "gemini-2.5-flash"
                             [feedback_prompt] None) ;;
         ret (text response))
        (fun e => emit (st_error ("Final Feedback API Error: " ++ str_of_exn e)) ;;
                  ret (Some "Failed to generate final feedback report."))
  end.

End AppRest.

(** ** Vocabulary of the statements *)

(** Every entry of [xs] validates as the experience record at the same
    position of [exps]. *)
Definition valid_experiences (xs : list json) (exps : list WorkExperience) : Prop :=
  Forall2 (fun x e => Pydantic.validate_WorkExperience x = inr e) xs exps.

(** The errors a validation step reports. *)
Definition errors_of {A : Type} (v : Pydantic.validated A) : list ErrorDetails :=
  match v with
  | inl errs => errs
  | inr _ => []
  end.

(** The request [parse_resume_to_json] sends for [resume_text]. *)
Definition resume_request (cl : GeminiClient) (resume_text : string)
    : outcome GenerateContentResponse :=
  generate_content cl "gemini-2.5-flash"
    [resume_prompt ++ "---RESUME TEXT---" ++ nl ++ resume_text]
    (Some (mkConfig "application/json" cls_ResumeProfile)).

(** The request [generate_optimization_report] sends. *)
Definition optimization_request (cl : GeminiClient) : outcome GenerateContentResponse :=
  generate_content cl "gemini-2.5-flash" [optimization_prompt]
    (Some (mkConfig "application/json" cls_OptimizationReport)).

(** [supabase is not None] *)
Definition configured (w : World) : bool :=
  match supabase w with Some _ => true | None => false end.

(** ** Concrete data for the closed examples *)

Module Example.

(** [s] between double quotes. *)
Definition q (s : string) : string := dq ++ s ++ dq.

(** Decimal digits of an integer, as [str(n)] gives them. *)
Definition str_Z (z : Z) : string := NilZero.string_of_int (Z.to_int z).

(** A library whose [json.loads] is given by its graph on the texts of the
    examples (every other text is a decoding error), and which formats
    [None], booleans, integers and strings as Python does. *)
Definition table_lib (table : list (string * json)) : PyLib := {|
  json_loads := fun s =>
    match lookup s table with
    | Some v => Return v
    | None => Raise (OtherError "JSONDecodeError" "Expecting value")
    end;
  json_dumps := fun _ => "{...}";
  format_value := fun v =>
    match v with
    | JNull => "None"
    | JBool true => "True"
    | JBool false => "False"
    | JInt z => str_Z z
    | JStr s => s
    | _ => "..."
    end;
  str_of_exn := fun e =>
    match e with
    | ValidationError t _ => "validation errors for " ++ t
    | TypeError m => m
    | KeyError k => "'" ++ k ++ "'"
    | AttributeError m => m
    | OtherError _ m => m
    end;
  coerce_int := fun v =>
    match v with
    | JBool b => inr (Z.b2z b)
    | _ => inl "int_type"
    end
|}.

(** The experience entry and the profile of the end-to-end scenario. *)
Definition acme : WorkExperience :=
  mkWorkExperience "Software Engineer" "Acme" "2015-2025" "built distributed systems".

Definition alice : ResumeProfile :=
  mkResumeProfile "Alice Smith" "alice@x.com"
    "Software engineer with 10 years of experience in distributed systems."
    ["Python"; "SQL"; "React"] [acme].

Definition acme_json : json :=
  JObj [("title", JStr "Software Engineer"); ("company", JStr "Acme");
        ("years", JStr "2015-2025"); ("summary", JStr "built distributed systems")].

(** The scenario payload, with three skills. *)
Definition alice_payload : list (string * json) :=
  [("name", JStr "Alice Smith"); ("email", JStr "alice@x.com");
   ("summary", JStr "Software engineer with 10 years of experience in distributed systems.");
   ("skills", JList [JStr "Python"; JStr "SQL"; JStr "React"]);
   ("experience", JList [acme_json])].

(** The same payload with an empty list of skills. *)
Definition alice_no_skills : list (string * json) :=
  [("name", JStr "Alice Smith"); ("email", JStr "alice@x.com");
   ("summary", JStr "Software engineer with 10 years of experience in distributed systems.");
   ("skills", JList []);
   ("experience", JList [acme_json])].

(** The same payload without its [email]. *)
Definition alice_no_email : list (string * json) :=
  [("name", JStr "Alice Smith");
   ("summary", JStr "Software engineer with 10 years of experience in distributed systems.");
   ("skills", JList [JStr "Python"; JStr "SQL"; JStr "React"]);
   ("experience", JList [acme_json])].

(** An optimization payload with a score above the range. *)
Definition over_range : list (string * json) :=
  [("match_score", JInt 101);
   ("keyword_gaps", JList [JStr "Kubernetes"; JStr "Go"; JStr "Terraform"]);
   ("suggestions", JList [JStr "Quantify impact"; JStr "Add cloud skills";
                          JStr "Mention leadership"])].

Definition over_range_text : string :=
  "{" ++ q "match_score" ++ ": 101, "
  ++ q "keyword_gaps" ++ ": [" ++ q "Kubernetes" ++ ", " ++ q "Go" ++ ", "
  ++ q "Terraform" ++ "], "
  ++ q "suggestions" ++ ": [" ++ q "Quantify impact" ++ ", "
  ++ q "Add cloud skills" ++ ", " ++ q "Mention leadership" ++ "]}".

(** An optimization payload without [match_score]. *)
Definition no_score : list (string * json) :=
  [("keyword_gaps", JList [JStr "Kubernetes"]);
   ("suggestions", JList [JStr "Quantify impact"])].

Definition no_score_text : string :=
  "{" ++ q "keyword_gaps" ++ ": [" ++ q "Kubernetes" ++ "], "
  ++ q "suggestions" ++ ": [" ++ q "Quantify impact" ++ "]}".

Definition no_email_text : string :=
  "{" ++ q "name" ++ ": " ++ q "Alice Smith" ++ ", "
  ++ q "summary" ++ ": "
  ++ q "Software engineer with 10 years of experience in distributed systems."
  ++ ", " ++ q "skills" ++ ": [" ++ q "Python" ++ ", " ++ q "SQL" ++ ", "
  ++ q "React" ++ "], "
  ++ q "experience" ++ ": [{" ++ q "title" ++ ": " ++ q "Software Engineer"
  ++ ", " ++ q "company" ++ ": " ++ q "Acme" ++ ", " ++ q "years" ++ ": "
  ++ q "2015-2025" ++ ", " ++ q "summary" ++ ": "
  ++ q "built distributed systems" ++ "}]}".

Definition lib : PyLib :=
  table_lib [(over_range_text, JObj over_range); (no_score_text, JObj no_score);
             (no_email_text, JObj alice_no_email)].

(** A client that answers every request with [t]. *)
Definition answering (t : string) : GeminiClient :=
  mkGemini (fun _ _ _ => Return (mkResponse (Some t))).

(** A client whose every request fails. *)
Definition failing : GeminiClient :=
  mkGemini (fun _ _ _ => Raise (OtherError "ServerError" "503 UNAVAILABLE")).

Definition no_resend : string -> outcome ResendClient :=
  fun _ => Raise (OtherError "ResendError" "invalid API key").

Definition empty_session : SessionState := mkSession None None [] None.

(** A world with the given generative client, no persistence client and no
    email key. *)
Definition world (c : option GeminiClient) (ss : SessionState) : World :=
  mkWorld c None None no_resend ss [].

End Example.

(** ** Vocabulary of the further properties *)

(** The world after [evs] have been shown, nothing else changed. *)
Definition with_shown (w : World) (evs : list event) : World :=
  mkWorld (client w) (supabase w) (RESEND_API_KEY w) (Resend w)
          (session_state w) (shown w ++ evs)%list.

(** The keys the email template reads from a job. *)
Definition template_keys : list string :=
  ["title"; "company_name"; "match_score"; "perfect_fit_reason"; "source_url"].

Definition has_key (kvs : list (string * json)) (key : string) : bool :=
  match lookup key kvs with Some _ => true | None => false end.

(** A job the template can be filled from: a dict with the five keys. *)
Definition job_complete (job : json) : bool :=
  match job with
  | JObj kvs => forallb (has_key kvs) template_keys
  | _ => false
  end.

(** A turn of the chat history as the application stores it: a dict with a
    string under [role] and something under [text]. *)
Definition turn_well_formed (m : json) : bool :=
  match m with
  | JObj kvs =>
      match lookup "role" kvs with
      | Some (JStr _) => has_key kvs "text"
      | _ => false
      end
  | _ => false
  end.

(** The requests of the other AI functions, and what each attempt comes
    to: the value the [try] block returns, or the exception it raises. *)
Definition cover_letter_request (cl : GeminiClient) : outcome GenerateContentResponse :=
  generate_content cl "gemini-2.5-flash" [cover_letter_prompt] None.

Definition feedback_request (cl : GeminiClient) : outcome GenerateContentResponse :=
  generate_content cl "gemini-2.5-flash" [feedback_prompt] None.

Definition resume_attempt {lib : PyLib} (cl : GeminiClient) (resume_text : string)
    : outcome ResumeProfile :=
  let* response := resume_request cl resume_text in
  let* d := loads_text (text response) in
  let* kwargs := kwargs_of d in
  ResumeProfile_init kwargs.

Definition optimization_attempt {lib : PyLib} (cl : GeminiClient) : outcome json :=
  let* response := optimization_request cl in
  loads_text (text response).

(** A text python-docx stores: the empty one, or one it accepts. *)
Definition docx_accepts {doc : DocLib} (t : string) : bool :=
  PyStr.falsy t || run_accepts t.




(** The stripped lines of an experience summary that become bullets of
    the DOCX. *)
Definition docx_v2_lines {doc : DocLib} (exp : WorkExperience) : list string :=
  filter (fun clean_line => negb (PyStr.falsy clean_line))
    (map py_strip (PyStr.split (ascii_of_nat 10) (exp_summary exp))).

(** The texts [generate_docx_v2] stores, constants apart. *)
Definition docx_v2_entry_texts {doc : DocLib} (exp : WorkExperience) : list string :=
  [title exp; " | " ++ company exp ++ " (" ++ years exp ++ ")"]
  ++ docx_v2_lines exp.

Definition docx_v2_texts {doc : DocLib} (p : ResumeProfile) : list string :=
  [py_upper (name p); email p; py_strip (summary p); PyStr.join ", " (skills p)]
  ++ flat_map docx_v2_entry_texts (experience p).

(** The texts [generate_docx] of [document_assets.py] stores. *)
Definition docx_entry_texts (exp : WorkExperience) : list string :=
  [title exp ++ " - " ++ company exp; "Dates: " ++ years exp; exp_summary exp].

Definition docx_texts (p : ResumeProfile) : list string :=
  [name p; email p; summary p; PyStr.join ", " (skills p)]
  ++ flat_map docx_entry_texts (experience p).

(** A paragraph of the DOCX set in the style "List Bullet". *)
Definition is_bullet (b : Docx.Block) : bool :=
  match b with
  | Docx.Para _ (Some style) _ => String.eqb style "List Bullet"
  | _ => false
  end.

(** What a reader sees of a paragraph of the DOCX: whether it is a
    bullet, and its text. *)
Definition paragraph_view (b : Docx.Block) : bool * string :=
  (is_bullet b, Docx.block_text b).

(** What the reader is to see for one experience entry in the DOCX of
    [generate_docx_v2]: the title line, then one bullet for every line of
    the summary that is not blank, stripped. *)
Definition docx_v2_entry_view {doc : DocLib} (exp : WorkExperience)
    : list (bool * string) :=
  (false, cr_to_lf (title exp ++ " | " ++ company exp ++ " (" ++ years exp ++ ")"))
  :: map (fun clean_line => (true, cr_to_lf clean_line)) (docx_v2_lines exp).




Module Sample.

(** The scenario payload whose experience entry has no [company]. *)
Definition entry_without_company : list (string * json) :=
  [("title", JStr "Software Engineer"); ("years", JStr "2015-2025");
   ("summary", JStr "built distributed systems")].

Definition payload_without_company : list (string * json) :=
  [("name", JStr "Alice Smith"); ("email", JStr "alice@x.com");
   ("summary", JStr "Software engineer.");
   ("skills", JList [JStr "Python"]);
   ("experience", JList [Example.acme_json; JObj entry_without_company])].

Definition job (t : string) (score : Z) : json :=
  JObj [("title", JStr t); ("company_name", JStr "Acme");
        ("match_score", JInt score); ("perfect_fit_reason", JStr "Python");
        ("source_url", JStr "https://jobs.example/1")].

(** A job without its [source_url]. *)
Definition job_without_url : json :=
  JObj [("title", JStr "SRE"); ("company_name", JStr "Acme");
        ("match_score", JInt 90); ("perfect_fit_reason", JStr "Python")].

(** A decoded payload that is a list, not a dict. *)
Definition list_text : string := "[1]".

Definition full_report : list (string * json) :=
  [("match_score", JInt 250); ("keyword_gaps", JList [JStr "Go"; JStr "Rust"]);
   ("suggestions", JList [JStr "Quantify impact"])].

Definition full_report_text : string :=
  "{" ++ Example.q "match_score" ++ ": 250, " ++ Example.q "keyword_gaps" ++ ": ["
  ++ Example.q "Go" ++ ", " ++ Example.q "Rust" ++ "], " ++ Example.q "suggestions"
  ++ ": [" ++ Example.q "Quantify impact" ++ "]}".

Definition lib : PyLib :=
  Example.table_lib [(list_text, JList [JInt 1]);
                     (full_report_text, JObj full_report);
                     (Example.no_email_text, JObj Example.alice_no_email)].

Definition session_with (p : ResumeProfile) : SessionState :=
  mkSession (Some p) None [] None.


(** An upload named as a PDF that the reader cannot open. *)
Definition broken_upload : UploadedFile :=
  mkUpload "cv.pdf" (Raise (OtherError "PdfReadError" "EOF marker not found"))
           (Raise (OtherError "PackageNotFoundError" "not a Word file")).

Definition good_turn : json :=
  JObj [("role", JStr "model"); ("text", JStr "Tell me about yourself.")].

Definition turn_without_text : json := JObj [("role", JStr "user")].

(** Plain text: printable ASCII without the characters of markup. *)
Definition plain_char (c : ascii) : bool :=
  let n := nat_of_ascii c in
  (32 <=? n)%nat && (n <=? 126)%nat
  && negb (Ascii.eqb c "<") && negb (Ascii.eqb c ">") && negb (Ascii.eqb c "&").

Fixpoint all_chars (f : ascii -> bool) (s : string) : bool :=
  match s with
  | EmptyString => true
  | String c r => f c && all_chars f r
  end.

(** The title line the renderers write: plain text with one bold part in
    front. *)
Definition bold_line (s : string) : bool :=
  match s with
  | String "<" (String "b" (String ">" r)) =>
      all_chars plain_char (PyStr.remove "</b>" r)
      && PyStr.contains "</b>" r
  | _ => false
  end.

(** A library for the closed examples, which hold ASCII text only, so
    that what it does beyond ASCII is never asked: it makes paragraphs of
    plain text and of the title line, and stores text that has no control
    character but the tab, the line feed and the carriage return. *)
Definition doclib : DocLib := {|
  upper_beyond_ascii := fun s => s;
  strip_beyond_ascii := fun s => s;
  parse_paragraph := fun s =>
    if all_chars plain_char s || bold_line s then Return tt
    else Raise (OtherError "ValueError" "paraparser: syntax error");
  store_run := fun s =>
    if all_chars (fun c => let n := nat_of_ascii c in
                           (32 <=? n)%nat || (n =? 9)%nat || (n =? 10)%nat
                           || (n =? 13)%nat) s
    then Return tt
    else Raise (OtherError "ValueError"
      "All strings must be XML compatible: Unicode or ASCII, no NULL bytes or control characters")
|}.

(** A profile with an experience summary of three lines, one of them
    blank, and a second entry whose summary is blank. *)
Definition two_jobs : ResumeProfile :=
  mkResumeProfile "Alice Smith" "alice@x.com" " Engineer. "
    ["Python"; "SQL"]
    [mkWorkExperience "Software Engineer" "Acme" "2015-2025"
       ("built distributed systems" ++ nl ++ "   " ++ nl ++ " led a team ");
     mkWorkExperience "Intern" "Initech" "2014" "  "].

End Sample.

(** * Properties *)

(** ** Substrings *)

Lemma append_empty_r (s : string) : s ++ EmptyString = s.
Proof. induction s as [|c r IH]; simpl; [reflexivity | now rewrite IH]. Qed.

Lemma append_assoc3 (a b c : string) : (a ++ b) ++ c = a ++ (b ++ c).
Proof. induction a as [|x r IH]; simpl; [reflexivity | now rewrite IH]. Qed.

Lemma prefix_iff (p s : string) :
  String.prefix p s = true <-> exists b, s = p ++ b.
Proof.
  revert s; induction p as [|c r IH]; intros s; simpl.
  - split; [intros _; now exists s | intros _; destruct s; reflexivity].
  - destruct s as [|d t].
    + split; [discriminate | intros [b Hb]; discriminate].
    + simpl. destruct (Ascii.ascii_dec c d) as [Heq|Hne].
      * subst d. rewrite IH. split; intros [b Hb]; exists b; simpl in *; congruence.
      * split; [discriminate | intros [b Hb]; simpl in Hb; congruence].
Qed.


Lemma Substring_refl (s : string) : Substring s s.
Proof. exists EmptyString, EmptyString. simpl. now rewrite append_empty_r. Qed.

Lemma Substring_app_r (n h t : string) : Substring n h -> Substring n (h ++ t).
Proof.
  intros [a [b ->]]. exists a, (b ++ t).
  now rewrite !append_assoc3.
Qed.

Lemma Substring_app_l (n h t : string) : Substring n h -> Substring n (t ++ h).
Proof.
  intros [a [b ->]]. exists (t ++ a), b.
  now rewrite !append_assoc3.
Qed.

(** A line of a joined text is a substring of the text. *)
Lemma Substring_join (sep x : string) (l : list string) :
  In x l -> Substring x (PyStr.join sep l).
Proof.
  unfold PyStr.join. induction l as [|y [|z l'] IH]; intros Hin.
  - destruct Hin.
  - destruct Hin as [->|[]]. simpl. apply Substring_refl.
  - destruct Hin as [->|Hin].
    + cbn [String.concat]. apply Substring_app_r, Substring_refl.
    + cbn [String.concat]. apply Substring_app_l, Substring_app_l, IH, Hin.
Qed.

Lemma Substring_trans (a b c : string) :
  Substring a b -> Substring b c -> Substring a c.
Proof.
  intros [x [y ->]] [u [v ->]]. exists (u ++ x), (y ++ v).
  now rewrite !append_assoc3.
Qed.


(** ** Validation of well-typed payloads *)

Section Validation.
Import Pydantic.

Lemma validate_items_strs (xs : list string) (i : nat) :
  validate_items validate_str i (map JStr xs) = inr xs.
Proof.
  revert i; induction xs as [|x xs IH]; intros i; simpl.
  - reflexivity.
  - now rewrite IH.
Qed.

Lemma validate_list_strs (xs : list string) :
  validate_list validate_str (JList (map JStr xs)) = inr xs.
Proof. apply validate_items_strs. Qed.

Lemma validate_items_experiences (xs : list json) (exps : list WorkExperience) :
  valid_experiences xs exps ->
  forall i, validate_items validate_WorkExperience i xs = inr exps.
Proof.
  induction 1 as [|x e xs exps Hx _ IH]; intros i; simpl.
  - reflexivity.
  - now rewrite Hx, IH.
Qed.

Lemma validate_WorkExperience_dump (e : WorkExperience) :
  validate_WorkExperience (WorkExperience_dump e) = inr e.
Proof. destruct e; reflexivity. Qed.

Lemma valid_experiences_dump (exps : list WorkExperience) :
  valid_experiences (map WorkExperience_dump exps) exps.
Proof.
  induction exps as [|e exps IH]; constructor.
  - apply validate_WorkExperience_dump.
  - exact IH.
Qed.

(** A payload whose five fields are there with values of the declared types
    validates to the record of these values, whatever the sizes of its
    lists and whatever other keys it has. *)
Lemma ResumeProfile_init_typed (kwargs : list (string * json))
    (n e s : string) (sk : list string) (xs : list json)
    (exps : list WorkExperience) :
  lookup "name" kwargs = Some (JStr n) ->
  lookup "email" kwargs = Some (JStr e) ->
  lookup "summary" kwargs = Some (JStr s) ->
  lookup "skills" kwargs = Some (JList (map JStr sk)) ->
  lookup "experience" kwargs = Some (JList xs) ->
  valid_experiences xs exps ->
  ResumeProfile_init kwargs = Return (mkResumeProfile n e s sk exps).
Proof.
  intros Hn He Hs Hsk Hx Hexps.
  unfold ResumeProfile_init, ResumeProfile_fields, required.
  rewrite Hn, He, Hs, Hsk, Hx.
  rewrite validate_list_strs.
  unfold validate_list. rewrite (validate_items_experiences _ _ Hexps).
  reflexivity.
Qed.

End Validation.

(** ** The list sizes named in the descriptions are not enforced *)

(** C5. A Profile payload whose [skills] list has three entries, below the
    8 to 12 the description asks for, and whose five fields are present
    with values of the declared types, validates: the result is the record
    of exactly these values. *)
Theorem three_skills_validate (kwargs : list (string * json))
    (n e s : string) (sk : list string) (xs : list json)
    (exps : list WorkExperience) :
  length sk = 3%nat ->
  lookup "name" kwargs = Some (JStr n) ->
  lookup "email" kwargs = Some (JStr e) ->
  lookup "summary" kwargs = Some (JStr s) ->
  lookup "skills" kwargs = Some (JList (map JStr sk)) ->
  lookup "experience" kwargs = Some (JList xs) ->
  valid_experiences xs exps ->
  ResumeProfile_init kwargs = Return (mkResumeProfile n e s sk exps).
Proof.
  intros _. apply ResumeProfile_init_typed.
Qed.

Lemma three_skills_validate_witness :
  ResumeProfile_init Example.alice_payload = Return Example.alice.
Proof.
  apply (three_skills_validate Example.alice_payload
           "Alice Smith" "alice@x.com"
           "Software engineer with 10 years of experience in distributed systems."
           ["Python"; "SQL"; "React"] [Example.acme_json] [Example.acme]).
  - reflexivity.
  - reflexivity.
  - reflexivity.
  - reflexivity.
  - reflexivity.
  - reflexivity.
  - constructor; [reflexivity | constructor].
Defined.

(** C9. A Profile payload whose [skills] is present and is the empty list,
    the other fields being present with values of the declared types,
    validates, and the record it yields has [skills = []]: a required list
    need not be non-empty. *)
Theorem empty_skills_validate (kwargs : list (string * json))
    (n e s : string) (xs : list json) (exps : list WorkExperience) :
  lookup "name" kwargs = Some (JStr n) ->
  lookup "email" kwargs = Some (JStr e) ->
  lookup "summary" kwargs = Some (JStr s) ->
  lookup "skills" kwargs = Some (JList []) ->
  lookup "experience" kwargs = Some (JList xs) ->
  valid_experiences xs exps ->
  exists p, ResumeProfile_init kwargs = Return p /\ skills p = []
            /\ p = mkResumeProfile n e s [] exps.
Proof.
  intros Hn He Hs Hsk Hx Hv.
  exists (mkResumeProfile n e s [] exps). repeat split.
  exact (ResumeProfile_init_typed kwargs n e s [] xs exps Hn He Hs Hsk Hx Hv).
Qed.

Lemma empty_skills_validate_witness :
  exists p, ResumeProfile_init Example.alice_no_skills = Return p /\ skills p = []
            /\ p = mkResumeProfile "Alice Smith" "alice@x.com"
                     "Software engineer with 10 years of experience in distributed systems."
                     [] [Example.acme].
Proof.
  apply (empty_skills_validate Example.alice_no_skills
           "Alice Smith" "alice@x.com"
           "Software engineer with 10 years of experience in distributed systems."
           [Example.acme_json] [Example.acme]).
  - reflexivity.
  - reflexivity.
  - reflexivity.
  - reflexivity.
  - reflexivity.
  - constructor; [reflexivity | constructor].
Defined.

(** ** The score range named in the description is not enforced *)

Section Score.
Context {lib : PyLib}.

(** C1, as the code has it.  Validation of an Optimization payload puts no
    bound on [match_score]: with the two lists present and well typed, every
    integer score, -1, 0, 50, 100 and 101 among them, validates and is kept
    as it is. *)
Theorem match_score_not_bounded (kwargs : list (string * json)) (z : Z)
    (gaps suggs : list string) :
  lookup "match_score" kwargs = Some (JInt z) ->
  lookup "keyword_gaps" kwargs = Some (JList (map JStr gaps)) ->
  lookup "suggestions" kwargs = Some (JList (map JStr suggs)) ->
  OptimizationReport_init kwargs = Return (mkOptimizationReport z gaps suggs).
Proof.
  intros Hz Hg Hs.
  unfold OptimizationReport_init, Pydantic.OptimizationReport_fields, Pydantic.required.
  rewrite Hz, Hg, Hs. rewrite !validate_list_strs. reflexivity.
Qed.

End Score.

Lemma match_score_not_bounded_witness :
  OptimizationReport_init (lib := Example.lib)
    [("match_score", JInt (-1)); ("keyword_gaps", JList (map JStr ["Go"]));
     ("suggestions", JList (map JStr ["Quantify impact"]))]
  = Return (mkOptimizationReport (-1) ["Go"] ["Quantify impact"]).
Proof.
  apply (match_score_not_bounded (lib := Example.lib)).
  - reflexivity.
  - reflexivity.
  - reflexivity.
Defined.

(** C1 as stated fails: a payload whose [match_score] is 101 validates,
    and [generate_optimization_report] hands it to its caller as decoded. *)
Lemma match_score_101_is_accepted :
  OptimizationReport_init (lib := Example.lib) Example.over_range
  = Return (mkOptimizationReport 101 ["Kubernetes"; "Go"; "Terraform"]
              ["Quantify impact"; "Add cloud skills"; "Mention leadership"])
  /\ fst (generate_optimization_report (lib := Example.lib) "{...}" "Senior SRE"
            (Example.world (Some (Example.answering Example.over_range_text))
                           Example.empty_session))
     = Return (JObj Example.over_range).
Proof. split; reflexivity. Qed.

(** ** Extraction: failure of the call, and payloads with a field missing *)

Module Errors.
Import Pydantic.

Lemma errors_of_ap {A B : Type} (f : validated (A -> B)) (x : validated A) :
  errors_of (f <*> x) = (errors_of f ++ errors_of x)%list.
Proof.
  destruct f, x; simpl; try reflexivity. now rewrite app_nil_r.
Qed.

Lemma reported_is_failure {A : Type} (v : validated A) (e : ErrorDetails) :
  In e (errors_of v) -> v = inl (errors_of v).
Proof. destruct v; simpl; [reflexivity | intros []]. Qed.

Lemma missing_reported {A : Type} (key : string) (item : json -> validated A)
    (kwargs : list (string * json)) :
  lookup key kwargs = None ->
  errors_of (required key item kwargs) = [mkError "missing" [LField key]].
Proof. intros H. unfold required. now rewrite H. Qed.

(** A Profile payload without one of the five fields is rejected, and the
    error names the field. *)
Lemma ResumeProfile_missing (kwargs : list (string * json)) (key : string) :
  In key ["name"; "email"; "summary"; "skills"; "experience"] ->
  lookup key kwargs = None ->
  exists errs,
    ResumeProfile_init kwargs = Raise (ValidationError "ResumeProfile" errs)
    /\ In (mkError "missing" [LField key]) errs.
Proof.
  intros Hkey Hnone.
  exists (errors_of (ResumeProfile_fields kwargs)).
  assert (Hin : In (mkError "missing" [LField key])
                   (errors_of (ResumeProfile_fields kwargs))).
  { unfold ResumeProfile_fields. rewrite !errors_of_ap. simpl errors_of at 1.
    simpl in Hkey.
    destruct Hkey as [<-|[<-|[<-|[<-|[<-|[]]]]]];
      rewrite (missing_reported _ _ _ Hnone);
      rewrite ?in_app_iff; simpl; tauto. }
  split; [|exact Hin].
  unfold ResumeProfile_init. rewrite (reported_is_failure _ _ Hin) at 1.
  reflexivity.
Qed.

(** The errors of the item at position [k] of a list are reported at
    that position. *)
Lemma errors_at_index {A : Type} (item : json -> validated A) (xs : list json)
    (i k : nat) (x : json) (e : ErrorDetails) :
  nth_error xs k = Some x ->
  In e (errors_of (item x)) ->
  In (mkError (err_type e) (LIndex (i + k) :: err_loc e))
     (errors_of (validate_items item i xs)).
Proof.
  revert i k. induction xs as [|y xs IH]; intros i k Hnth Hin.
  - destruct k; discriminate.
  - cbn [validate_items]. rewrite !errors_of_ap, !in_app_iff.
    destruct k as [|k].
    + injection Hnth as ->. left. right. rewrite Nat.add_0_r.
      destruct (item x) as [errs|]; simpl in *; [|contradiction].
      apply in_map_iff. now exists e.
    + right. replace (i + S k)%nat with (S i + k)%nat by lia.
      apply IH; assumption.
Qed.

(** A Profile payload with an experience entry that lacks one of its four
    fields is rejected, and the error names the entry and the field. *)
Lemma ResumeProfile_nested_missing (kwargs : list (string * json))
    (xs : list json) (k : nat) (entry : list (string * json)) (key : string) :
  lookup "experience" kwargs = Some (JList xs) ->
  nth_error xs k = Some (JObj entry) ->
  In key ["title"; "company"; "years"; "summary"] ->
  lookup key entry = None ->
  exists errs,
    ResumeProfile_init kwargs = Raise (ValidationError "ResumeProfile" errs)
    /\ In (mkError "missing" [LField "experience"; LIndex k; LField key]) errs.
Proof.
  intros Hexp Hnth Hkey Hnone.
  exists (errors_of (ResumeProfile_fields kwargs)).
  assert (Hentry : In (mkError "missing" [LField key])
                      (errors_of (validate_WorkExperience (JObj entry)))).
  { simpl. unfold WorkExperience_fields. rewrite !errors_of_ap.
    simpl errors_of at 1. simpl in Hkey.
    destruct Hkey as [<-|[<-|[<-|[<-|[]]]]];
      rewrite (missing_reported _ _ _ Hnone);
      rewrite ?in_app_iff; simpl; tauto. }
  assert (Hin : In (mkError "missing" [LField "experience"; LIndex k; LField key])
                   (errors_of (ResumeProfile_fields kwargs))).
  { unfold ResumeProfile_fields. rewrite !errors_of_ap, !in_app_iff.
    right. unfold required. rewrite Hexp. simpl validate_list.
    pose proof (errors_at_index validate_WorkExperience xs 0 k _ _ Hnth Hentry) as H.
    simpl in H.
    destruct (validate_items validate_WorkExperience 0 xs) as [errs|];
      simpl in *; [|contradiction].
    apply in_map_iff. eexists. split; [|exact H]. reflexivity. }
  split; [|exact Hin].
  unfold ResumeProfile_init. rewrite (reported_is_failure _ _ Hin) at 1.
  reflexivity.
Qed.

(** The only defaults are the declared ones: an interview-session payload
    without [status] and [history] gets "ready" and the empty list, and one
    without [role] is rejected. *)
Lemma InterviewSettings_defaults (r t : string) :
  InterviewSettings_init [("role", JStr r); ("type", JStr t)]
  = Return (mkInterviewSettings r t "ready" []).
Proof. reflexivity. Qed.

Lemma InterviewSettings_role_required (t : string) :
  InterviewSettings_init [("type", JStr t)]
  = Raise (ValidationError "InterviewSettings" [mkError "missing" [LField "role"]]).
Proof. reflexivity. Qed.

End Errors.

Section Extraction.
Context {lib : PyLib}.

(** C4. When the generative call of a resume extraction raises, the caller
    gets [None], no record at all, nothing is raised to it, and the failure
    is shown as an "AI Parsing Error" with the text of the exception. *)
Theorem extraction_call_failure (w : World) (cl : GeminiClient)
    (resume_text : string) (e : exn) :
  client w = Some cl ->
  resume_request cl resume_text = Raise e ->
  parse_resume_to_json resume_text w
  = (Return None,
     snd (emit (st_error ("AI Parsing Error: " ++ str_of_exn e)) w)).
Proof.
  intros Hc Hcall. unfold resume_request in Hcall.
  unfold parse_resume_to_json, bind, get. rewrite Hc.
  unfold try_except, lift. rewrite Hcall. reflexivity.
Qed.

(** What [parse_resume_to_json] does with a payload that validation
    rejects: it returns [None] and shows the validation error. *)
Lemma rejected_payload (w : World) (cl : GeminiClient) (resume_text t : string)
    (kvs : list (string * json)) (e : exn) :
  client w = Some cl ->
  resume_request cl resume_text = Return (mkResponse (Some t)) ->
  json_loads t = Return (JObj kvs) ->
  ResumeProfile_init kvs = Raise e ->
  parse_resume_to_json resume_text w
  = (Return None,
     snd (emit (st_error ("AI Parsing Error: " ++ str_of_exn e)) w)).
Proof.
  intros Hc Hcall Hloads Hinit. unfold resume_request in Hcall.
  unfold parse_resume_to_json, bind, get. rewrite Hc.
  unfold try_except, lift. rewrite Hcall. simpl. rewrite Hloads. simpl.
  rewrite Hinit. reflexivity.
Qed.

(** C2, as the code has it.  With a client at hand: a Profile payload
    without one of its five fields, or with an experience entry without
    one of its four fields, fails validation with an error naming the
    field, and [parse_resume_to_json] returns [None], no record, and shows
    that error.  An Optimization payload is not validated:
    [generate_optimization_report] returns what was decoded, whichever
    keys it has, and shows nothing. *)
Theorem missing_profile_field_is_rejected (w : World) (cl : GeminiClient) :
  client w = Some cl ->
  (forall (resume_text t : string) (kvs : list (string * json)) (key : string),
      resume_request cl resume_text = Return (mkResponse (Some t)) ->
      json_loads t = Return (JObj kvs) ->
      In key ["name"; "email"; "summary"; "skills"; "experience"] ->
      lookup key kvs = None ->
      exists errs,
        ResumeProfile_init kvs = Raise (ValidationError "ResumeProfile" errs)
        /\ In (mkError "missing" [LField key]) errs
        /\ parse_resume_to_json resume_text w
           = (Return None,
              snd (emit (st_error ("AI Parsing Error: "
                                   ++ str_of_exn (ValidationError "ResumeProfile" errs)))
                        w)))
  /\ (forall (resume_text t : string) (kvs : list (string * json))
             (xs : list json) (k : nat) (entry : list (string * json))
             (key : string),
      resume_request cl resume_text = Return (mkResponse (Some t)) ->
      json_loads t = Return (JObj kvs) ->
      lookup "experience" kvs = Some (JList xs) ->
      nth_error xs k = Some (JObj entry) ->
      In key ["title"; "company"; "years"; "summary"] ->
      lookup key entry = None ->
      exists errs,
        ResumeProfile_init kvs = Raise (ValidationError "ResumeProfile" errs)
        /\ In (mkError "missing" [LField "experience"; LIndex k; LField key]) errs
        /\ parse_resume_to_json resume_text w
           = (Return None,
              snd (emit (st_error ("AI Parsing Error: "
                                   ++ str_of_exn (ValidationError "ResumeProfile" errs)))
                        w)))
  /\ (forall (profile_json job_description t' : string) (d : json),
        optimization_request cl = Return (mkResponse (Some t')) ->
        json_loads t' = Return d ->
        generate_optimization_report profile_json job_description w = (Return d, w)).
Proof.
  intros Hc. repeat split.
  - intros resume_text t kvs key Hcall Hloads Hkey Hnone.
    destruct (Errors.ResumeProfile_missing kvs key Hkey Hnone) as [errs [Hinit Hin]].
    exists errs. repeat split; try assumption.
    exact (rejected_payload w cl resume_text t kvs _ Hc Hcall Hloads Hinit).
  - intros resume_text t kvs xs k entry key Hcall Hloads Hexp Hnth Hkey Hnone.
    destruct (Errors.ResumeProfile_nested_missing kvs xs k entry key
                Hexp Hnth Hkey Hnone) as [errs [Hinit Hin]].
    exists errs. repeat split; try assumption.
    exact (rejected_payload w cl resume_text t kvs _ Hc Hcall Hloads Hinit).
  - intros pj jd t' d Hopt Hd. unfold optimization_request in Hopt.
    unfold generate_optimization_report, bind, get. rewrite Hc.
    unfold try_except, lift. rewrite Hopt. simpl. rewrite Hd. reflexivity.
Qed.

End Extraction.

Lemma extraction_call_failure_witness :
  parse_resume_to_json (lib := Example.lib) "Name: Alice Smith"
    (Example.world (Some Example.failing) Example.empty_session)
  = (Return None,
     mkWorld (Some Example.failing) None None Example.no_resend
       Example.empty_session [st_error "AI Parsing Error: 503 UNAVAILABLE"]).
Proof.
  apply (extraction_call_failure (lib := Example.lib)
           (Example.world (Some Example.failing) Example.empty_session)
           Example.failing "Name: Alice Smith"
           (OtherError "ServerError" "503 UNAVAILABLE")).
  - reflexivity.
  - reflexivity.
Defined.

Lemma missing_profile_field_is_rejected_witness :
  fst (parse_resume_to_json (lib := Example.lib) "Name: Alice Smith"
         (Example.world (Some (Example.answering Example.no_email_text))
                        Example.empty_session))
  = Return None.
Proof.
  destruct (missing_profile_field_is_rejected (lib := Example.lib)
              (Example.world (Some (Example.answering Example.no_email_text))
                             Example.empty_session)
              (Example.answering Example.no_email_text) eq_refl) as [H _].
  destruct (H "Name: Alice Smith" Example.no_email_text Example.alice_no_email
              "email" eq_refl eq_refl (or_intror (or_introl eq_refl)) eq_refl)
    as [errs [_ [_ Hparse]]].
  rewrite Hparse. reflexivity.
Defined.

(** C2 as stated fails on Optimization payloads: one without [match_score]
    is returned to the handler as decoded, and the handler shows the score
    0 in its place. *)
Lemma missing_match_score_is_defaulted :
  lookup "match_score" Example.no_score = None
  /\ fst (generate_optimization_report (lib := Example.lib) "{...}" "Senior SRE"
            (Example.world (Some (Example.answering Example.no_score_text))
                           (mkSession (Some Example.alice) None [] None)))
     = Return (JObj Example.no_score)
  /\ shown (snd (analyze_profile_button (lib := Example.lib) "Senior SRE"
                   (Example.world (Some (Example.answering Example.no_score_text))
                                  (mkSession (Some Example.alice) None [] None))))
     = [st_spinner "🔬 Performing Keyword Gap Analysis and Optimization...";
        st_success "Analysis complete!";
        st_metric "Match Confidence Score" "0%" "High score = high ATS compatibility";
        st_subheader "Key Improvement Areas (Gaps)";
        st_warning "⚠️ The following keywords/skills from the JD are missing or underrepresented in your profile:";
        st_markdown "- **Kubernetes**";
        st_subheader "Optimization Suggestions";
        st_info "💡 Use these suggestions to update your profile and maximize your score:";
        st_markdown "- Quantify impact"].
Proof. repeat split; vm_compute; reflexivity. Qed.

(** ** The persistence placeholders *)

Section Persistence.
Context {lib : PyLib}.

(** Without both credentials the module leaves [supabase] at [None]. *)
Lemma db_interface_init_unconfigured (url key : option string)
    (create_client : string -> string -> outcome SupabaseClient) (w : World) :
  env_set url = None \/ env_set key = None ->
  supabase (snd (db_interface_init url key create_client w)) = None.
Proof.
  intros H. unfold db_interface_init, bind.
  destruct (env_set url), (env_set key); destruct H; try discriminate;
    reflexivity.
Qed.

(** C6. With no persistence client, both save functions return [False] for
    every input, raise nothing, print nothing and leave the world, the
    session records in it included, exactly as it was. *)
Theorem save_unconfigured (w : World) (user_id : string) (profile_json : json)
    (keywords frequency : string) :
  supabase w = None ->
  save_user_profile user_id profile_json w = (Return false, w)
  /\ save_user_alert_preferences user_id keywords frequency w = (Return false, w).
Proof.
  intros Hs. unfold save_user_profile, save_user_alert_preferences, bind, get.
  rewrite Hs. split; reflexivity.
Qed.

Lemma save_result (w : World) (user_id : string) (profile_json : json) :
  fst (save_user_profile user_id profile_json w) = Return (configured w).
Proof.
  unfold save_user_profile, configured, bind, get.
  destruct (supabase w); reflexivity.
Qed.

Lemma save_alert_result (w : World) (user_id keywords frequency : string) :
  fst (save_user_alert_preferences user_id keywords frequency w)
  = Return (configured w).
Proof.
  unfold save_user_alert_preferences, configured, bind, get.
  destruct (supabase w); reflexivity.
Qed.

(** C10. The result of the save functions depends on the configuration
    only: two calls made in worlds that agree on whether the client is
    initialized return the same boolean, whatever the user ids and the
    payloads, and that boolean is [True] exactly when the client is
    initialized. *)
Theorem save_depends_on_configuration_only (w1 w2 : World)
    (user1 user2 : string) (profile1 profile2 : json)
    (keywords1 keywords2 frequency1 frequency2 : string) :
  configured w1 = configured w2 ->
  fst (save_user_profile user1 profile1 w1)
  = fst (save_user_profile user2 profile2 w2)
  /\ fst (save_user_alert_preferences user1 keywords1 frequency1 w1)
     = fst (save_user_alert_preferences user2 keywords2 frequency2 w2)
  /\ fst (save_user_profile user1 profile1 w1) = Return (configured w1)
  /\ fst (save_user_alert_preferences user1 keywords1 frequency1 w1)
     = Return (configured w1).
Proof.
  intros Hcfg. rewrite !save_result, !save_alert_result, Hcfg.
  repeat split; reflexivity.
Qed.

End Persistence.

Lemma save_unconfigured_witness :
  save_user_profile "user-1" (ResumeProfile_dump Example.alice)
    (Example.world None (mkSession (Some Example.alice) None [] None))
  = (Return false, Example.world None (mkSession (Some Example.alice) None [] None))
  /\ save_user_alert_preferences "user-1" "MLOps, NLP" "Weekly"
       (Example.world None (mkSession (Some Example.alice) None [] None))
     = (Return false, Example.world None (mkSession (Some Example.alice) None [] None)).
Proof.
  apply (save_unconfigured
           (Example.world None (mkSession (Some Example.alice) None [] None))).
  reflexivity.
Defined.

Lemma save_depends_on_configuration_only_witness :
  fst (save_user_profile "user-1" (ResumeProfile_dump Example.alice)
         (mkWorld None (Some (mkSupabase "https://db.example")) None
                  Example.no_resend Example.empty_session []))
  = fst (save_user_profile "user-2" JNull
           (mkWorld None (Some (mkSupabase "https://other.example")) None
                    Example.no_resend Example.empty_session [print "earlier"])).
Proof.
  apply (save_depends_on_configuration_only
           (mkWorld None (Some (mkSupabase "https://db.example")) None
                    Example.no_resend Example.empty_session [])
           (mkWorld None (Some (mkSupabase "https://other.example")) None
                    Example.no_resend Example.empty_session [print "earlier"])
           "user-1" "user-2" (ResumeProfile_dump Example.alice) JNull
           "MLOps" "NLP" "Weekly" "Daily").
  reflexivity.
Defined.

(** ** The notification collaborator *)

Section Notification.
Context {lib : PyLib}.

(** C7. For every recipient and job list, in every world,
    [send_job_alert_email] returns a boolean and raises nothing.  The
    boolean is [True] only when the key is set, the SDK client was built,
    the jobs were formatted and [emails.send] returned: a missing key and
    any exception on the way give [False]. *)
Theorem send_never_raises (w : World) (recipient_email : string)
    (top_jobs : list json) :
  exists (b : bool) (w' : World),
    send_job_alert_email recipient_email top_jobs w = (Return b, w')
    /\ (b = true <->
        exists key resend_client email_html,
          env_set (RESEND_API_KEY w) = Some key
          /\ Resend w key = Return resend_client
          /\ format_jobs_for_email top_jobs = Return email_html
          /\ emails_send resend_client (alert_email recipient_email email_html)
             = Return tt).
Proof.
  unfold send_job_alert_email, bind, get.
  destruct (env_set (RESEND_API_KEY w)) as [key|] eqn:Hkey.
  2:{ eexists _, _. split; [reflexivity|].
      split; [discriminate | intros (k & c & h & Hk & _); discriminate]. }
  unfold try_except, lift.
  destruct (Resend w key) as [cl|e1] eqn:Hmk.
  2:{ eexists _, _. split; [reflexivity|].
      split; [discriminate | intros (k & c & h & Hk & Hc & _)].
      injection Hk as <-. congruence. }
  destruct (format_jobs_for_email top_jobs) as [html|e2] eqn:Hfmt.
  2:{ eexists _, _. split; [reflexivity|].
      split; [discriminate | intros (k & c & h & _ & _ & Hh & _); discriminate]. }
  destruct (emails_send cl (alert_email recipient_email html)) as [[]|e3] eqn:Hsend.
  - eexists _, _. split; [reflexivity|].
    split; [intros _; exists key, cl, html; auto | reflexivity].
  - eexists _, _. split; [reflexivity|].
    split; [discriminate | intros (k & c & h & Hk & Hc & Hh & Hs)].
    injection Hk as <-. rewrite Hmk in Hc. injection Hc as <-.
    injection Hh as <-. congruence.
Qed.

End Notification.

(** ** The document renderers *)

Section Rendering.
Context {doc : DocLib}.
Import Reportlab.

Lemma lift_then_ret_world {A B : Type} (o : outcome A) (f : A -> B) (w : World) :
  snd ((x <- lift o ;; ret (f x)) w) = w.
Proof. unfold bind, lift, ret. destruct o; reflexivity. Qed.

(** C8. Each renderer, the two of [app.py] and the two of
    [document_assets.py], leaves the world as it was, whether it returns a
    document or raises: the profile it was given, which the session holds,
    has the same name, email, summary, skills and experience entries after
    the call as before. *)
Theorem renderers_leave_profile_unchanged (p : ResumeProfile) (w : World) :
  parsed_profile (session_state w) = Some p ->
  parsed_profile (session_state (snd (generate_pdf_v2 p w))) = Some p
  /\ parsed_profile (session_state (snd (generate_docx_v2 p w))) = Some p
  /\ parsed_profile (session_state (snd (generate_pdf p w))) = Some p
  /\ parsed_profile (session_state (snd (generate_docx p w))) = Some p
  /\ snd (generate_pdf_v2 p w) = w
  /\ snd (generate_docx_v2 p w) = w
  /\ snd (generate_pdf p w) = w
  /\ snd (generate_docx p w) = w.
Proof.
  intros Hp.
  assert (H1 : snd (generate_pdf_v2 p w) = w) by apply lift_then_ret_world.
  assert (H2 : snd (generate_docx_v2 p w) = w)
    by apply (lift_then_ret_world _ (fun d => d)).
  assert (H3 : snd (generate_pdf p w) = w) by apply lift_then_ret_world.
  assert (H4 : snd (generate_docx p w) = w)
    by apply (lift_then_ret_world _ (fun d => d)).
  rewrite H1, H2, H3, H4. repeat split; assumption.
Qed.

End Rendering.

Lemma renderers_leave_profile_unchanged_witness :
  parsed_profile (session_state
    (snd (generate_pdf_v2 (doc := Sample.doclib) Example.alice
            (Example.world None (mkSession (Some Example.alice) None [] None)))))
  = Some Example.alice.
Proof.
  apply (renderers_leave_profile_unchanged (doc := Sample.doclib) Example.alice
           (Example.world None (mkSession (Some Example.alice) None [] None))).
  reflexivity.
Defined.

(** ** What the renderers put in a document *)

Section Stories.
Context {doc : DocLib}.
Import Reportlab.

(** A loop whose every turn returns, returns what the turns appended. *)
Lemma for_each_outs {A B : Type} (body : A -> outcome (list B))
    (Q : A -> list B -> Prop) (xs : list A) :
  (forall x, In x xs -> exists fs, body x = Return fs /\ Q x fs) ->
  exists outs, for_each body xs = Return (concat outs) /\ Forall2 Q xs outs.
Proof.
  induction xs as [|x xs IH]; intros Hbody.
  - exists []. split; [reflexivity | constructor].
  - destruct (Hbody x (or_introl eq_refl)) as [fs [Hfs HQ]].
    destruct IH as [outs [Houts Hall]].
    { intros y Hy. apply Hbody. now right. }
    exists (fs :: outs). cbn [for_each concat]. rewrite Hfs. cbn [obind].
    rewrite Houts. cbn [obind]. split; [reflexivity | now constructor].
Qed.



Lemma forallb_flat_map {A B : Type} (f : B -> bool) (g : A -> list B)
    (xs : list A) (x : A) :
  forallb f (flat_map g xs) = true -> In x xs -> forallb f (g x) = true.
Proof.
  induction xs as [|y xs IH]; cbn [flat_map]; intros H Hin.
  - destruct Hin.
  - rewrite forallb_app, andb_true_iff in H. destruct H as [Hy Hxs].
    destruct Hin as [<-|Hin]; [exact Hy | now apply IH].
Qed.





Lemma cr_to_lf_app (a b : string) : cr_to_lf (a ++ b) = cr_to_lf a ++ cr_to_lf b.
Proof. induction a as [|c a IH]; cbn [append cr_to_lf]; [reflexivity | now rewrite IH]. Qed.

Lemma docx_text_accepted (t : string) :
  docx_accepts t = true -> docx_text t = Return (cr_to_lf t).
Proof.
  unfold docx_accepts, run_accepts, docx_text.
  destruct t as [|c t]; [reflexivity|]. cbn [PyStr.falsy orb].
  destruct (store_run (String c t)) as [[]|]; [reflexivity | discriminate].
Qed.

Lemma block_text_add_paragraph (t : string) (st : option string) :
  Docx.block_text (Docx.add_paragraph t st) = t.
Proof. destruct t; reflexivity. Qed.

Lemma block_text_aligned (a : Z) (b : Docx.Block) :
  Docx.block_text (Docx.aligned a b) = Docx.block_text b.
Proof. destruct b; reflexivity. Qed.

Lemma docx_bullets_accepted (lines : list string) :
  forallb docx_accepts lines = true ->
  for_each docx_bullet lines
  = Return (map (fun line => Docx.add_paragraph (cr_to_lf line) (Some "List Bullet"))
                lines).
Proof.
  induction lines as [|l lines IH]; cbn [map forallb for_each].
  - reflexivity.
  - rewrite andb_true_iff. intros [Hl Hrest].
    unfold docx_bullet at 1, docx_add_paragraph.
    rewrite (docx_text_accepted _ Hl). cbn [obind].
    rewrite (IH Hrest). reflexivity.
Qed.

(** What one experience entry adds to the document of
    [generate_docx_v2]: the paragraph of its title line, then its
    bullets. *)
Lemma docx_v2_entry_shape (e : WorkExperience) :
  forallb docx_accepts (docx_v2_entry_texts e) = true ->
  exists blocks,
    docx_v2_entry e = Return blocks
    /\ map paragraph_view blocks = docx_v2_entry_view e.
Proof.
  unfold docx_v2_entry_texts. cbn [app forallb]. rewrite !andb_true_iff.
  intros [Ht [Hr Hlines]].
  unfold docx_v2_entry, docx_add_run.
  rewrite (docx_text_accepted _ Ht). cbn [obind].
  rewrite (docx_text_accepted _ Hr). cbn [obind].
  fold (docx_v2_lines e).
  rewrite (docx_bullets_accepted _ Hlines). cbn [obind].
  eexists. split; [reflexivity|]. unfold docx_v2_entry_view.
  cbn [map]. f_equal.
  - unfold paragraph_view.
    cbn [is_bullet Docx.block_text map Docx.run_text String.concat append].
    now rewrite (cr_to_lf_app (title e)).
  - rewrite map_map. apply map_ext. intros l. unfold paragraph_view.
    now rewrite block_text_add_paragraph.
Qed.

(** The document of [generate_docx_v2], for texts python-docx accepts:
    its eight paragraphs of the header, then what the entries give. *)
Lemma docx_v2_blocks_shape (p : ResumeProfile) :
  forallb docx_accepts (docx_v2_texts p) = true ->
  exists blocks,
    docx_v2_blocks p = Return blocks
    /\ map paragraph_view blocks
       = ([(false, cr_to_lf (py_upper (name p))); (false, cr_to_lf (email p));
           (false, PyStr.times "—" 50); (false, "SUMMARY");
           (false, cr_to_lf (py_strip (summary p))); (false, "KEY SKILLS");
           (false, cr_to_lf (PyStr.join ", " (skills p))); (false, "EXPERIENCE")]
          ++ flat_map docx_v2_entry_view (experience p))%list.
Proof.
  unfold docx_v2_texts. cbn [app forallb]. rewrite !andb_true_iff.
  intros [Hn [He [Hs [Hk Hexp]]]].
  unfold docx_v2_blocks, docx_add_run, docx_add_paragraph.
  rewrite (docx_text_accepted _ Hn), (docx_text_accepted _ He),
    (docx_text_accepted _ Hs), (docx_text_accepted _ Hk).
  cbn [obind].
  destruct (for_each_outs docx_v2_entry
              (fun e blocks => map paragraph_view blocks = docx_v2_entry_view e)
              (experience p)) as [outs [Houts Hall]].
  { intros e Hin. apply docx_v2_entry_shape.
    exact (forallb_flat_map _ _ _ _ Hexp Hin). }
  rewrite Houts. cbn [obind]. eexists. split; [reflexivity|].
  cbn [app map]. unfold paragraph_view at 1 2 3 4 5 6 7 8.
  rewrite block_text_aligned, !block_text_add_paragraph.
  unfold Docx.aligned, Docx.add_paragraph.
  cbn [is_bullet Docx.block_text map Docx.run_text String.concat].
  do 8 f_equal.
  clear Houts Hexp. induction Hall as [|e fs es outs Hv _ IH];
    cbn [concat map flat_map].
  - reflexivity.
  - now rewrite map_app, Hv, IH.
Qed.

(** The text of a document, from what a reader sees of its parts. *)
Lemma docx_text_of_view (d : Docx.Document) :
  Docx.document_text d = PyStr.join nl (map snd (map paragraph_view d)).
Proof. unfold Docx.document_text. now rewrite map_map. Qed.

Lemma Substring_cr_to_lf (a b : string) :
  Substring a b -> Substring (cr_to_lf a) (cr_to_lf b).
Proof.
  intros [x [y ->]]. exists (cr_to_lf x), (cr_to_lf y).
  now rewrite !cr_to_lf_app.
Qed.

Lemma Substring_in_line (needle line sep : string) (lines : list string) :
  Substring needle line -> In line lines ->
  Substring needle (PyStr.join sep lines).
Proof.
  intros Hn Hin. eapply Substring_trans; [exact Hn|].
  apply Substring_join, Hin.
Qed.

Lemma Substring_mid (a n b : string) : Substring n (a ++ n ++ b).
Proof. now exists a, b. Qed.

(** ** What the renderers do with a text a library refuses *)

Lemma forallb_flat_map_each {A B : Type} (f : B -> bool) (g : A -> list B)
    (xs : list A) :
  forallb f (flat_map g xs) = forallb (fun x => forallb f (g x)) xs.
Proof.
  induction xs as [|x xs IH]; cbn [flat_map forallb]; [reflexivity|].
  now rewrite forallb_app, IH.
Qed.


(** A loop raises when some turn does and the turns before it return. *)
Lemma for_each_raises {A B : Type} (body : A -> outcome (list B))
    (ok : A -> bool) (xs : list A) :
  (forall x, ok x = true -> exists fs, body x = Return fs) ->
  (forall x, ok x = false -> exists e, body x = Raise e) ->
  forallb ok xs = false ->
  exists e, for_each body xs = Raise e.
Proof.
  intros Hret Hraise. induction xs as [|x xs IH]; cbn [forallb for_each].
  - discriminate.
  - destruct (ok x) eqn:Hx; cbn [andb].
    + intros Hrest. destruct (Hret x Hx) as [fs ->]. cbn [obind].
      destruct (IH Hrest) as [e ->]. exists e. reflexivity.
    + intros _. destruct (Hraise x Hx) as [e ->]. exists e. reflexivity.
Qed.


Lemma docx_text_refused (t : string) :
  docx_accepts t = false -> exists e, docx_text t = Raise e.
Proof.
  unfold docx_accepts, run_accepts, docx_text.
  destruct t as [|c t]; [discriminate|]. cbn [PyStr.falsy orb].
  destruct (store_run (String c t)) as [[]|e]; [discriminate|].
  intros _. exists e. reflexivity.
Qed.



Lemma docx_v2_entry_refused (e : WorkExperience) :
  forallb docx_accepts (docx_v2_entry_texts e) = false ->
  exists err, docx_v2_entry e = Raise err.
Proof.
  unfold docx_v2_entry_texts. cbn [app forallb].
  unfold docx_v2_entry, docx_add_run.
  destruct (docx_accepts (title e)) eqn:Ht; cbn [andb].
  2:{ intros _. destruct (docx_text_refused _ Ht) as [err ->].
      exists err. reflexivity. }
  rewrite (docx_text_accepted _ Ht). cbn [obind].
  destruct (docx_accepts (" | " ++ company e ++ " (" ++ years e ++ ")")) eqn:Hr;
    cbn [andb].
  2:{ intros _. destruct (docx_text_refused _ Hr) as [err ->].
      exists err. reflexivity. }
  rewrite (docx_text_accepted _ Hr). cbn [obind].
  fold (docx_v2_lines e). intros Hlines.
  destruct (for_each_raises docx_bullet docx_accepts (docx_v2_lines e))
    as [err ->].
  - intros l Hl. unfold docx_bullet, docx_add_paragraph.
    rewrite (docx_text_accepted _ Hl). eexists. reflexivity.
  - intros l Hl. unfold docx_bullet, docx_add_paragraph.
    destruct (docx_text_refused _ Hl) as [err ->]. exists err. reflexivity.
  - exact Hlines.
  - exists err. reflexivity.
Qed.

(** [generate_docx_v2] builds no document when python-docx refuses one of
    its texts. *)
Lemma docx_v2_blocks_refused (p : ResumeProfile) :
  forallb docx_accepts (docx_v2_texts p) = false ->
  exists err, docx_v2_blocks p = Raise err.
Proof.
  unfold docx_v2_texts. cbn [app forallb].
  unfold docx_v2_blocks, docx_add_run, docx_add_paragraph.
  destruct (docx_accepts (py_upper (name p))) eqn:Hn; cbn [andb].
  2:{ intros _. destruct (docx_text_refused _ Hn) as [err ->].
      exists err. reflexivity. }
  rewrite (docx_text_accepted _ Hn). cbn [obind].
  destruct (docx_accepts (email p)) eqn:He; cbn [andb].
  2:{ intros _. destruct (docx_text_refused _ He) as [err ->].
      exists err. reflexivity. }
  rewrite (docx_text_accepted _ He). cbn [obind].
  destruct (docx_accepts (py_strip (summary p))) eqn:Hs; cbn [andb].
  2:{ intros _. destruct (docx_text_refused _ Hs) as [err ->].
      exists err. reflexivity. }
  rewrite (docx_text_accepted _ Hs). cbn [obind].
  destruct (docx_accepts (PyStr.join ", " (skills p))) eqn:Hk; cbn [andb].
  2:{ intros _. destruct (docx_text_refused _ Hk) as [err ->].
      exists err. reflexivity. }
  rewrite (docx_text_accepted _ Hk). cbn [obind].
  rewrite forallb_flat_map_each. intros Hexp.
  destruct (for_each_raises docx_v2_entry
              (fun e => forallb docx_accepts (docx_v2_entry_texts e))
              (experience p)) as [err ->].
  - intros e Hok. destruct (docx_v2_entry_shape e Hok) as [fs [-> _]].
    eexists. reflexivity.
  - intros e Hbad. exact (docx_v2_entry_refused e Hbad).
  - exact Hexp.
  - exists err. reflexivity.
Qed.

End Stories.

(** ** The text of the rendered scenario profile *)

Section ScenarioText.
Context {doc : DocLib}.
Import Reportlab.


End ScenarioText.



(** * Further properties of the code *)

(** ** Validation: what is accepted, and where an error points *)

Section Acceptance.
Import Pydantic.

Lemma ap_accepts {A B : Type} (f : validated (A -> B)) (x : validated A) (b : B) :
  f <*> x = inr b -> exists g a, f = inr g /\ x = inr a /\ b = g a.
Proof.
  destruct f as [e1|g], x as [e2|a]; simpl; try discriminate.
  intros H. injection H as <-. now exists g, a.
Qed.

Lemma required_accepts {A : Type} (key : string) (item : json -> validated A)
    (kwargs : list (string * json)) (a : A) :
  required key item kwargs = inr a ->
  exists v, lookup key kwargs = Some v /\ item v = inr a.
Proof.
  unfold required. destruct (lookup key kwargs) as [v|]; [|discriminate].
  intros H. exists v. split; [reflexivity|].
  destruct (item v); simpl in H; [discriminate | exact H].
Qed.

Lemma validate_str_accepts (v : json) (s : string) :
  validate_str v = inr s -> v = JStr s.
Proof. destruct v; simpl; try discriminate. now intros [= ->]. Qed.

Lemma validate_items_accepts {A : Type} (item : json -> validated A)
    (xs : list json) (out : list A) (i : nat) :
  validate_items item i xs = inr out ->
  Forall2 (fun x a => item x = inr a) xs out.
Proof.
  revert out i. induction xs as [|x xs IH]; intros out i; cbn [validate_items].
  - intros [= <-]. constructor.
  - intros H. apply ap_accepts in H. destruct H as (g & rest & Hg & Hrest & ->).
    apply ap_accepts in Hg. destruct Hg as (c & a & Hc & Ha & ->).
    injection Hc as <-. constructor.
    + destruct (item x); simpl in Ha; [discriminate | exact Ha].
    + eapply IH, Hrest.
Qed.

Lemma strs_accepted (xs : list json) (l : list string) :
  Forall2 (fun x s => validate_str x = inr s) xs l -> xs = map JStr l.
Proof.
  induction 1 as [|x s xs l Hx _ IH]; simpl; [reflexivity|].
  now rewrite (validate_str_accepts _ _ Hx), IH.
Qed.

Lemma validate_list_accepts {A : Type} (item : json -> validated A) (v : json)
    (out : list A) :
  validate_list item v = inr out ->
  exists xs, v = JList xs /\ Forall2 (fun x a => item x = inr a) xs out.
Proof.
  destruct v; simpl; try discriminate.
  intros H. exists xs. split; [reflexivity|].
  eapply validate_items_accepts, H.
Qed.

(** X1. Validation accepts a payload exactly when its five fields are there
    with values of the declared types, and the record it returns holds
    exactly the values of the payload. *)
Theorem ResumeProfile_accepted_iff (kwargs : list (string * json))
    (p : ResumeProfile) :
  ResumeProfile_init kwargs = Return p <->
  lookup "name" kwargs = Some (JStr (name p))
  /\ lookup "email" kwargs = Some (JStr (email p))
  /\ lookup "summary" kwargs = Some (JStr (summary p))
  /\ lookup "skills" kwargs = Some (JList (map JStr (skills p)))
  /\ exists xs, lookup "experience" kwargs = Some (JList xs)
                /\ valid_experiences xs (experience p).
Proof.
  split.
  - unfold ResumeProfile_init, init.
    destruct (ResumeProfile_fields kwargs) as [errs|p'] eqn:Hf; [discriminate|].
    intros [= ->]. unfold ResumeProfile_fields in Hf.
    apply ap_accepts in Hf. destruct Hf as (g5 & exps & Hf & He & ->).
    apply ap_accepts in Hf. destruct Hf as (g4 & sk & Hf & Hk & ->).
    apply ap_accepts in Hf. destruct Hf as (g3 & s & Hf & Hs & ->).
    apply ap_accepts in Hf. destruct Hf as (g2 & e & Hf & Hm & ->).
    apply ap_accepts in Hf. destruct Hf as (g1 & n & Hf & Hn & ->).
    injection Hf as <-. simpl.
    apply required_accepts in Hn, Hm, Hs, Hk, He.
    destruct Hn as (vn & Ln & Vn), Hm as (vm & Lm & Vm), Hs as (vs & Ls & Vs),
             Hk as (vk & Lk & Vk), He as (ve & Le & Ve).
    apply validate_str_accepts in Vn, Vm, Vs. subst vn vm vs.
    apply validate_list_accepts in Vk, Ve.
    destruct Vk as (ks & -> & Hks), Ve as (xs & -> & Hxs).
    apply strs_accepted in Hks. subst ks.
    repeat split; try assumption. exists xs. split; assumption.
  - intros (Hn & Hm & Hs & Hk & xs & He & Hv).
    destruct p as [n e s sk exps]; simpl in *.
    eapply ResumeProfile_init_typed; eassumption.
Qed.

(** X2. Dumping a record and validating the dump gives the record back. *)
Theorem ResumeProfile_dump_roundtrip (p : ResumeProfile) :
  (let* kwargs := kwargs_of (ResumeProfile_dump p) in ResumeProfile_init kwargs)
  = Return p.
Proof.
  destruct p as [n e s sk exps]. simpl.
  apply (ResumeProfile_init_typed _ n e s sk (map WorkExperience_dump exps) exps);
    try reflexivity.
  apply valid_experiences_dump.
Qed.

Lemma lookup_other {A : Type} (k key : string) (v : A) (kvs : list (string * A)) :
  k <> key -> lookup key ((k, v) :: kvs) = lookup key kvs.
Proof.
  intros Hne. simpl. destruct (String.eqb_spec k key); [contradiction | reflexivity].
Qed.

(** X3. A key that is not a declared field is ignored: adding it to a
    payload changes neither acceptance nor the record nor the errors. *)
Theorem undeclared_key_is_ignored (kwargs : list (string * json)) (k : string)
    (v : json) :
  ~ In k ["name"; "email"; "summary"; "skills"; "experience"] ->
  ResumeProfile_init ((k, v) :: kwargs) = ResumeProfile_init kwargs.
Proof.
  intros Hk. unfold ResumeProfile_init, ResumeProfile_fields, required.
  rewrite !lookup_other; [reflexivity | | | | |];
    intros ->; apply Hk; simpl; tauto.
Qed.

(** X4. A field missing from the experience entry at position [k] rejects
    the whole payload, and the error points at it: [experience], [k], the
    field. *)
Theorem nested_missing_field_is_located (kwargs : list (string * json))
    (xs : list json) (k : nat) (entry : list (string * json)) (key : string) :
  lookup "experience" kwargs = Some (JList xs) ->
  nth_error xs k = Some (JObj entry) ->
  In key ["title"; "company"; "years"; "summary"] ->
  lookup key entry = None ->
  exists errs,
    ResumeProfile_init kwargs = Raise (ValidationError "ResumeProfile" errs)
    /\ In (mkError "missing" [LField "experience"; LIndex k; LField key]) errs.
Proof.
  intros Hexp Hnth Hkey Hnone.
  exists (errors_of (ResumeProfile_fields kwargs)).
  assert (Hentry : In (mkError "missing" [LField key])
                      (errors_of (validate_WorkExperience (JObj entry)))).
  { simpl. unfold WorkExperience_fields. rewrite !Errors.errors_of_ap.
    simpl errors_of at 1. simpl in Hkey.
    destruct Hkey as [<-|[<-|[<-|[<-|[]]]]];
      rewrite (Errors.missing_reported _ _ _ Hnone);
      rewrite ?in_app_iff; simpl; tauto. }
  assert (Hin : In (mkError "missing" [LField "experience"; LIndex k; LField key])
                   (errors_of (ResumeProfile_fields kwargs))).
  { unfold ResumeProfile_fields. rewrite !Errors.errors_of_ap, !in_app_iff.
    right. unfold required. rewrite Hexp. simpl validate_list.
    pose proof (Errors.errors_at_index validate_WorkExperience xs 0 k _ _ Hnth Hentry) as H.
    simpl in H.
    destruct (validate_items validate_WorkExperience 0 xs) as [errs|];
      simpl in *; [|contradiction].
    apply in_map_iff. eexists. split; [|exact H]. reflexivity. }
  split; [|exact Hin].
  unfold ResumeProfile_init. rewrite (Errors.reported_is_failure _ _ Hin) at 1.
  reflexivity.
Qed.

End Acceptance.

Lemma undeclared_key_is_ignored_witness :
  ResumeProfile_init (("phone", JStr "555-0100") :: Example.alice_payload)
  = ResumeProfile_init Example.alice_payload.
Proof.
  apply (undeclared_key_is_ignored Example.alice_payload "phone" (JStr "555-0100")).
  simpl. intros [H|[H|[H|[H|[H|[]]]]]]; discriminate H.
Defined.

Lemma nested_missing_field_is_located_witness :
  exists errs,
    ResumeProfile_init Sample.payload_without_company
    = Raise (ValidationError "ResumeProfile" errs)
    /\ In (mkError "missing" [LField "experience"; LIndex 1; LField "company"]) errs.
Proof.
  apply (nested_missing_field_is_located Sample.payload_without_company
           [Example.acme_json; JObj Sample.entry_without_company] 1
           Sample.entry_without_company "company").
  - reflexivity.
  - reflexivity.
  - simpl. right. left. reflexivity.
  - reflexivity.
Defined.

(** ** The AI functions: what they return and what they let through *)

Section Flows.
Context {lib : PyLib}.

Lemma with_shown_emit (w : World) (evs : list event) (ev : event) :
  snd (emit ev (with_shown w evs)) = with_shown w (evs ++ [ev]).
Proof. unfold emit, with_shown. simpl. now rewrite app_assoc. Qed.

Lemma emit_is_with_shown (w : World) (ev : event) :
  emit ev w = (Return tt, with_shown w [ev]).
Proof. reflexivity. Qed.

Lemma bind_lift_return {A B : Type} (a : A) (k : A -> M B) (w : World) :
  bind (lift (Return a)) k w = k a w.
Proof. reflexivity. Qed.

Lemma bind_emit {B : Type} (ev : event) (k : M B) (w : World) :
  bind (emit ev) (fun _ => k) w = k (with_shown w [ev]).
Proof. reflexivity. Qed.

Lemma with_shown_twice (w : World) (evs more : list event) :
  with_shown (with_shown w evs) more = with_shown w (evs ++ more).
Proof. unfold with_shown. cbn [client supabase RESEND_API_KEY Resend session_state shown]. now rewrite app_assoc. Qed.

(** X5. [parse_resume_to_json] raises nothing, whatever the client does
    and whatever it answers.  Without a client it returns [None] and shows
    the warning "AI client not available.".  With one, when the call, the
    decoding and the validation give a record, it returns that record and
    shows nothing; when one of them raises, it returns [None] and shows
    the one error "AI Parsing Error: " with the text of the exception. *)
Theorem parse_resume_never_raises (w : World) (resume_text : string) :
  (client w = None
   /\ parse_resume_to_json resume_text w
      = (Return None, with_shown w [st_warning "AI client not available."]))
  \/ (exists cl p,
        client w = Some cl
        /\ resume_attempt cl resume_text = Return p
        /\ parse_resume_to_json resume_text w = (Return (Some p), w))
  \/ (exists cl e,
        client w = Some cl
        /\ resume_attempt cl resume_text = Raise e
        /\ parse_resume_to_json resume_text w
           = (Return None,
              with_shown w [st_error ("AI Parsing Error: " ++ str_of_exn e)])).
Proof.
  destruct (client w) as [cl|] eqn:Hc.
  - right.
    assert (Hrun : parse_resume_to_json resume_text w
                   = match resume_attempt cl resume_text with
                     | Return p => (Return (Some p), w)
                     | Raise e =>
                         (Return None,
                          with_shown w [st_error ("AI Parsing Error: "
                                                  ++ str_of_exn e)])
                     end).
    { unfold parse_resume_to_json, resume_attempt, resume_request, bind, get.
      rewrite Hc. unfold try_except, lift.
      destruct (generate_content cl _ _ _) as [response|e]; cbn [obind];
        [|reflexivity].
      destruct (loads_text (text response)) as [d|e]; cbn [obind]; [|reflexivity].
      destruct (kwargs_of d) as [kwargs|e]; cbn [obind]; [|reflexivity].
      destruct (ResumeProfile_init kwargs) as [p|e]; reflexivity. }
    destruct (resume_attempt cl resume_text) as [p|e] eqn:Ha;
      [left; exists cl, p | right; exists cl, e];
      (split; [reflexivity | split; [exact Ha | exact Hrun]]).
  - left. split; [reflexivity|].
    unfold parse_resume_to_json, bind, get. rewrite Hc. reflexivity.
Qed.

(** X6. [parse_resume_to_json] returns a record exactly when there is a
    client, the call answered with a text, the text decoded to a dict and
    the dict validated; the record is the validated one. *)
Theorem parse_resume_returns_iff (w : World) (resume_text : string)
    (p : ResumeProfile) :
  fst (parse_resume_to_json resume_text w) = Return (Some p) <->
  exists cl t kvs,
    client w = Some cl
    /\ resume_request cl resume_text = Return (mkResponse (Some t))
    /\ json_loads t = Return (JObj kvs)
    /\ ResumeProfile_init kvs = Return p.
Proof.
  unfold resume_request, parse_resume_to_json, bind, get. split.
  - destruct (client w) as [cl|]; [|discriminate].
    unfold try_except, lift.
    destruct (generate_content cl _ _ _) as [[[t|]]|e] eqn:Hcall;
      try discriminate.
    simpl. destruct (json_loads t) as [d|e] eqn:Hd; try discriminate.
    destruct d; try discriminate. simpl.
    destruct (ResumeProfile_init kvs) as [p'|e] eqn:Hp; try discriminate.
    simpl. intros [= ->]. exists cl, t, kvs. auto.
  - intros (cl & t & kvs & Hc & Hcall & Hd & Hp).
    rewrite Hc. unfold try_except, lift. rewrite Hcall. simpl.
    rewrite Hd. simpl. rewrite Hp. reflexivity.
Qed.

(** X7. [generate_optimization_report] raises nothing.  Without a client
    it returns [None] and shows nothing.  With one, it returns what the
    answer decodes to and shows nothing; when the call or the decoding
    raises, it returns [None] and shows the one error
    "Optimization API Error: " with the text of the exception. *)
Theorem optimization_report_never_raises (w : World)
    (profile_json job_description : string) :
  (client w = None
   /\ generate_optimization_report profile_json job_description w
      = (Return JNull, w))
  \/ (exists cl d,
        client w = Some cl
        /\ optimization_attempt cl = Return d
        /\ generate_optimization_report profile_json job_description w
           = (Return d, w))
  \/ (exists cl e,
        client w = Some cl
        /\ optimization_attempt cl = Raise e
        /\ generate_optimization_report profile_json job_description w
           = (Return JNull,
              with_shown w [st_error ("Optimization API Error: " ++ str_of_exn e)])).
Proof.
  destruct (client w) as [cl|] eqn:Hc.
  - right.
    assert (Hrun : generate_optimization_report profile_json job_description w
                   = match optimization_attempt cl with
                     | Return d => (Return d, w)
                     | Raise e =>
                         (Return JNull,
                          with_shown w [st_error ("Optimization API Error: "
                                                  ++ str_of_exn e)])
                     end).
    { unfold generate_optimization_report, optimization_attempt,
        optimization_request, bind, get.
      rewrite Hc. unfold try_except, lift.
      destruct (generate_content cl _ _ _) as [response|e]; cbn [obind];
        [|reflexivity].
      destruct (loads_text (text response)) as [d|e]; reflexivity. }
    destruct (optimization_attempt cl) as [d|e] eqn:Ha;
      [left; exists cl, d | right; exists cl, e];
      (split; [reflexivity | split; [exact Ha | exact Hrun]]).
  - left. split; [reflexivity|].
    unfold generate_optimization_report, bind, get. rewrite Hc. reflexivity.
Qed.

(** What the handler has shown when it starts reading the result. *)
Lemma analyze_reaches_result (w : World) (cl : GeminiClient)
    (profile : ResumeProfile) (target_job_description t : string) (d : json) :
  parsed_profile (session_state w) = Some profile ->
  PyStr.falsy target_job_description = false ->
  client w = Some cl ->
  optimization_request cl = Return (mkResponse (Some t)) ->
  json_loads t = Return d ->
  truthy d = true ->
  analyze_profile_button target_job_description w
  = (score <- lift (dict_get d "match_score" (JInt 0)) ;;
     gaps <- lift (dict_get d "keyword_gaps" (JList [JStr "N/A"])) ;;
     suggestions <- lift (dict_get d "suggestions" (JList [JStr "N/A"])) ;;
     emit (st_metric "Match Confidence Score" (format_value score ++ "%")
                     "High score = high ATS compatibility") ;;
     emit (st_subheader "Key Improvement Areas (Gaps)") ;;
     emit (st_warning "⚠️ The following keywords/skills from the JD are missing or underrepresented in your profile:") ;;
     gap_items <- lift (iterate gaps) ;;
     emit (st_markdown (PyStr.join nl
             (map (fun gap => "- **" ++ format_value gap ++ "**") gap_items))) ;;
     emit (st_subheader "Optimization Suggestions") ;;
     emit (st_info "💡 Use these suggestions to update your profile and maximize your score:") ;;
     suggestion_items <- lift (iterate suggestions) ;;
     emit (st_markdown (PyStr.join nl
             (map (fun s => "- " ++ format_value s) suggestion_items))))
    (with_shown w [st_spinner "🔬 Performing Keyword Gap Analysis and Optimization...";
                   st_success "Analysis complete!"]).
Proof.
  intros Hp Hjd Hc Hcall Hd Htruthy. unfold optimization_request in Hcall.
  unfold analyze_profile_button.
  unfold bind at 1. unfold get at 1. rewrite Hp, Hjd.
  unfold bind at 1. rewrite emit_is_with_shown.
  unfold bind at 1. unfold generate_optimization_report.
  unfold bind at 1. unfold get at 1. cbn [with_shown client]. rewrite Hc.
  unfold try_except, lift at 1. unfold bind at 1. unfold lift at 1.
  rewrite Hcall. unfold lift at 1. cbn [text loads_text]. rewrite Hd.
  rewrite Htruthy. unfold bind at 1. rewrite emit_is_with_shown.
  unfold with_shown. simpl. rewrite <- app_assoc. reflexivity.
Qed.

(** X8. A decoded payload that is truthy but not a dict, a list or a number
    for instance, makes the handler raise: "Analysis complete!" is shown,
    then reading [match_score] fails with an [AttributeError] that nothing
    catches. *)
Theorem analyze_raises_on_non_dict (w : World) (cl : GeminiClient)
    (profile : ResumeProfile) (target_job_description t : string) (d : json) :
  parsed_profile (session_state w) = Some profile ->
  PyStr.falsy target_job_description = false ->
  client w = Some cl ->
  optimization_request cl = Return (mkResponse (Some t)) ->
  json_loads t = Return d ->
  truthy d = true ->
  (forall kvs, d <> JObj kvs) ->
  analyze_profile_button target_job_description w
  = (Raise (AttributeError "object has no attribute 'get'"),
     with_shown w [st_spinner "🔬 Performing Keyword Gap Analysis and Optimization...";
                   st_success "Analysis complete!"]).
Proof.
  intros Hp Hjd Hc Hcall Hd Htruthy Hnot.
  rewrite (analyze_reaches_result w cl profile _ t d Hp Hjd Hc Hcall Hd Htruthy).
  destruct d; try reflexivity. exfalso. eapply Hnot. reflexivity.
Qed.

(** X9. For a non-empty dict whose two lists are lists, the handler shows
    the score as it was decoded, whatever it is and with no range check
    (0 when the key is absent), then one bullet per gap and one per
    suggestion, and returns. *)
Theorem analyze_shows_decoded_result (w : World) (cl : GeminiClient)
    (profile : ResumeProfile) (target_job_description t : string)
    (kvs : list (string * json)) (gaps suggs : list json) :
  parsed_profile (session_state w) = Some profile ->
  PyStr.falsy target_job_description = false ->
  client w = Some cl ->
  optimization_request cl = Return (mkResponse (Some t)) ->
  json_loads t = Return (JObj kvs) ->
  kvs <> [] ->
  lookup "keyword_gaps" kvs = Some (JList gaps) ->
  lookup "suggestions" kvs = Some (JList suggs) ->
  analyze_profile_button target_job_description w
  = (Return tt,
     with_shown w
       [st_spinner "🔬 Performing Keyword Gap Analysis and Optimization...";
        st_success "Analysis complete!";
        st_metric "Match Confidence Score"
          (format_value (match lookup "match_score" kvs with
                         | Some v => v
                         | None => JInt 0
                         end) ++ "%")
          "High score = high ATS compatibility";
        st_subheader "Key Improvement Areas (Gaps)";
        st_warning "⚠️ The following keywords/skills from the JD are missing or underrepresented in your profile:";
        st_markdown (PyStr.join nl
          (map (fun gap => "- **" ++ format_value gap ++ "**") gaps));
        st_subheader "Optimization Suggestions";
        st_info "💡 Use these suggestions to update your profile and maximize your score:";
        st_markdown (PyStr.join nl
          (map (fun s => "- " ++ format_value s) suggs))]).
Proof.
  intros Hp Hjd Hc Hcall Hd Hne Hg Hs.
  assert (Htruthy : truthy (JObj kvs) = true)
    by (destruct kvs; [contradiction | reflexivity]).
  rewrite (analyze_reaches_result w cl profile _ t _ Hp Hjd Hc Hcall Hd Htruthy).
  cbn [dict_get]. rewrite Hg, Hs. cbn [iterate].
  repeat (rewrite bind_lift_return || rewrite bind_emit
          || rewrite with_shown_twice || (progress cbn [iterate])).
  rewrite emit_is_with_shown, with_shown_twice. reflexivity.
Qed.

End Flows.

Lemma analyze_raises_on_non_dict_witness :
  fst (analyze_profile_button (lib := Sample.lib) "Senior SRE"
         (Example.world (Some (Example.answering Sample.list_text))
                        (Sample.session_with Example.alice)))
  = Raise (AttributeError "object has no attribute 'get'").
Proof.
  rewrite (analyze_raises_on_non_dict (lib := Sample.lib)
             (Example.world (Some (Example.answering Sample.list_text))
                            (Sample.session_with Example.alice))
             (Example.answering Sample.list_text) Example.alice "Senior SRE"
             Sample.list_text (JList [JInt 1])).
  - reflexivity.
  - reflexivity.
  - reflexivity.
  - reflexivity.
  - reflexivity.
  - reflexivity.
  - reflexivity.
  - intros kvs H. discriminate H.
Defined.

Lemma analyze_shows_decoded_result_witness :
  In (st_metric "Match Confidence Score" "250%" "High score = high ATS compatibility")
     (shown (snd (analyze_profile_button (lib := Sample.lib) "Senior SRE"
                    (Example.world (Some (Example.answering Sample.full_report_text))
                                   (Sample.session_with Example.alice))))).
Proof.
  rewrite (analyze_shows_decoded_result (lib := Sample.lib)
             (Example.world (Some (Example.answering Sample.full_report_text))
                            (Sample.session_with Example.alice))
             (Example.answering Sample.full_report_text) Example.alice "Senior SRE"
             Sample.full_report_text Sample.full_report
             [JStr "Go"; JStr "Rust"] [JStr "Quantify impact"]).
  - simpl. right. right. left. reflexivity.
  - reflexivity.
  - reflexivity.
  - reflexivity.
  - reflexivity.
  - reflexivity.
  - discriminate.
  - reflexivity.
  - reflexivity.
Defined.

(** ** The job alert email *)

Section Alerts.
Context {lib : PyLib}.

Lemma job_block_returns_iff (job : json) :
  (exists b, job_block job = Return b) <-> job_complete job = true.
Proof.
  unfold job_block, job_complete, getitem, has_key.
  destruct job as [| | | | | |kvs]; cbn [obind];
    try (split; [intros [? Hb]; discriminate Hb | discriminate]).
  cbn [forallb template_keys obind].
  destruct (lookup "title" kvs); cbn [obind andb];
    [|split; [intros [? Hb]; discriminate Hb | discriminate]].
  destruct (lookup "company_name" kvs); cbn [obind andb];
    [|split; [intros [? Hb]; discriminate Hb | discriminate]].
  destruct (lookup "match_score" kvs); cbn [obind andb];
    [|split; [intros [? Hb]; discriminate Hb | discriminate]].
  destruct (lookup "perfect_fit_reason" kvs); cbn [obind andb];
    [|split; [intros [? Hb]; discriminate Hb | discriminate]].
  destruct (lookup "source_url" kvs); cbn [obind andb];
    [|split; [intros [? Hb]; discriminate Hb | discriminate]].
  split; [reflexivity | intros _; eexists; reflexivity].
Qed.

Lemma job_block_raises (job : json) (e : exn) :
  job_block job = Raise e ->
  (exists key, In key template_keys /\ e = KeyError key)
  \/ (exists msg, e = TypeError msg).
Proof.
  unfold job_block, getitem.
  destruct job as [| | | | | |kvs]; cbn [obind];
    try (intros [= <-]; right; eexists; reflexivity).
  destruct (lookup "title" kvs); cbn [obind];
    [|intros [= <-]; left; eexists; split; [|reflexivity]; simpl; tauto].
  destruct (lookup "company_name" kvs); cbn [obind];
    [|intros [= <-]; left; eexists; split; [|reflexivity]; simpl; tauto].
  destruct (lookup "match_score" kvs); cbn [obind];
    [|intros [= <-]; left; eexists; split; [|reflexivity]; simpl; tauto].
  destruct (lookup "perfect_fit_reason" kvs); cbn [obind];
    [|intros [= <-]; left; eexists; split; [|reflexivity]; simpl; tauto].
  destruct (lookup "source_url" kvs); cbn [obind];
    [|intros [= <-]; left; eexists; split; [|reflexivity]; simpl; tauto].
  discriminate.
Qed.

Lemma format_jobs_from_returns_iff (top_jobs : list json) (h : string) :
  (exists html, format_jobs_from h top_jobs = Return html)
  <-> forallb job_complete top_jobs = true.
Proof.
  revert h. induction top_jobs as [|job rest IH]; intros h; cbn [format_jobs_from forallb].
  - split; [reflexivity | intros _; eexists; reflexivity].
  - rewrite andb_true_iff, <- job_block_returns_iff, <- (IH h). split.
    + intros [html H]. destruct (job_block job) as [b|e]; [|discriminate H].
      cbn [obind] in H. split; [eexists; reflexivity|].
      apply (proj2 (IH h)), (proj1 (IH (h ++ b))). eexists. exact H.
    + intros [[b Hb] Hrest]. rewrite Hb. cbn [obind].
      apply (proj2 (IH (h ++ b))), (proj1 (IH h)). exact Hrest.
Qed.

(** X10. The email body is built exactly when every job is a dict holding
    the five keys of the template; one incomplete job anywhere in the list
    makes the whole formatting raise. *)
Theorem format_jobs_returns_iff (top_jobs : list json) :
  (exists html, format_jobs_for_email top_jobs = Return html)
  <-> forallb job_complete top_jobs = true.
Proof. apply format_jobs_from_returns_iff. Qed.

Lemma format_jobs_from_raises (top_jobs : list json) (h : string) (e : exn) :
  format_jobs_from h top_jobs = Raise e ->
  (exists key, In key template_keys /\ e = KeyError key)
  \/ (exists msg, e = TypeError msg).
Proof.
  revert h. induction top_jobs as [|job rest IH]; intros h; cbn [format_jobs_from].
  - discriminate.
  - destruct (job_block job) as [b|e'] eqn:Hb; cbn [obind].
    + apply IH.
    + intros [= <-]. eapply job_block_raises, Hb.
Qed.

(** X11. When formatting raises, the exception is a [KeyError] naming one
    of the five template keys, or the [TypeError] of a job that is not a
    dict. *)
Theorem format_jobs_raises_only (top_jobs : list json) (e : exn) :
  format_jobs_for_email top_jobs = Raise e ->
  (exists key, In key template_keys /\ e = KeyError key)
  \/ (exists msg, e = TypeError msg).
Proof. apply format_jobs_from_raises. Qed.

Lemma format_jobs_from_includes (top_jobs : list json) (h html : string) :
  format_jobs_from h top_jobs = Return html ->
  (exists tail, html = h ++ tail)
  /\ forall job, In job top_jobs ->
       exists b, job_block job = Return b /\ Substring b html.
Proof.
  revert h. induction top_jobs as [|job rest IH]; intros h; cbn [format_jobs_from].
  - intros [= <-]. split; [exists EmptyString; now rewrite append_empty_r|].
    intros job [].
  - destruct (job_block job) as [b|e] eqn:Hb; cbn [obind]; [|discriminate].
    intros H. destruct (IH _ H) as [[tail ->] Hin]. split.
    + exists (b ++ tail). now rewrite append_assoc3.
    + intros j [<-|Hj]; [|apply Hin, Hj].
      exists b. split; [exact Hb|]. exists h, tail. now rewrite append_assoc3.
Qed.

(** X12. The email body starts with the heading and holds the block of
    every job of the list, however many there are: nothing cuts the list
    down to three. *)
Theorem format_jobs_includes_every_job (top_jobs : list json) (html : string) :
  format_jobs_for_email top_jobs = Return html ->
  String.prefix "<h2>Your Personalized Job Alerts Are Ready!</h2>" html = true
  /\ forall job, In job top_jobs ->
       exists b, job_block job = Return b /\ Substring b html.
Proof.
  intros H. destruct (format_jobs_from_includes _ _ _ H) as [Hpre Hin].
  split; [apply prefix_iff; exact Hpre | exact Hin].
Qed.

(** X13. Whatever happens, [send_job_alert_email] prints exactly one line
    and changes nothing else in the world. *)
Theorem send_prints_one_line (w : World) (recipient_email : string)
    (top_jobs : list json) :
  exists b msg,
    send_job_alert_email recipient_email top_jobs w
    = (Return b, with_shown w [print msg]).
Proof.
  unfold send_job_alert_email, bind, get.
  destruct (env_set (RESEND_API_KEY w)) as [key|]; [|eexists _, _; reflexivity].
  unfold try_except, lift.
  destruct (Resend w key) as [cl|e1]; [|eexists _, _; reflexivity].
  destruct (format_jobs_for_email top_jobs) as [html|e2];
    [|eexists _, _; reflexivity].
  destruct (emails_send cl _) as [[]|e3]; eexists _, _; reflexivity.
Qed.

End Alerts.

Lemma format_jobs_raises_only_witness :
  (exists key, In key template_keys /\ KeyError "source_url" = KeyError key)
  \/ (exists msg, KeyError "source_url" = TypeError msg).
Proof.
  apply (format_jobs_raises_only (lib := Example.lib)
           [Sample.job "SRE" 90; Sample.job_without_url]).
  reflexivity.
Defined.

Lemma format_jobs_includes_every_job_witness :
  exists b,
    job_block (lib := Example.lib) (Sample.job "Backend Engineer" 75) = Return b
    /\ Substring b
         (match format_jobs_for_email (lib := Example.lib)
                  [Sample.job "SRE" 90; Sample.job "Data Engineer" 85;
                   Sample.job "MLOps Engineer" 80;
                   Sample.job "Backend Engineer" 75] with
          | Return html => html
          | Raise _ => EmptyString
          end).
Proof.
  destruct (format_jobs_includes_every_job (lib := Example.lib)
              [Sample.job "SRE" 90; Sample.job "Data Engineer" 85;
               Sample.job "MLOps Engineer" 80; Sample.job "Backend Engineer" 75]
              _ eq_refl) as [_ H].
  apply (H (Sample.job "Backend Engineer" 75)).
  do 3 right. left. reflexivity.
Defined.

(** ** Persistence: from the credentials to the result of a save *)

Section Configuration.
Context {lib : PyLib}.

(** X14. The module body raises nothing, and afterwards both save
    functions return [True] exactly when both credentials were set and
    non-empty and [create_client] returned a client; a missing credential
    or a failed [create_client] makes every later save return [False]. *)
Theorem save_after_init (SUPABASE_URL SUPABASE_SERVICE_KEY : option string)
    (create_client : string -> string -> outcome SupabaseClient) (w : World)
    (user_id : string) (profile_json : json) (keywords frequency : string) :
  exists b,
    fst ((db_interface_init SUPABASE_URL SUPABASE_SERVICE_KEY create_client ;;
          save_user_profile user_id profile_json) w) = Return b
    /\ fst ((db_interface_init SUPABASE_URL SUPABASE_SERVICE_KEY create_client ;;
             save_user_alert_preferences user_id keywords frequency) w) = Return b
    /\ (b = true <->
        exists url key c,
          env_set SUPABASE_URL = Some url
          /\ env_set SUPABASE_SERVICE_KEY = Some key
          /\ create_client url key = Return c).
Proof.
  unfold db_interface_init, save_user_profile, save_user_alert_preferences,
    bind, get, try_except, lift.
  destruct (env_set SUPABASE_URL) as [url|] eqn:Hu.
  2:{ exists false. cbn. repeat split; try discriminate.
      intros (u & k & c & H & _). discriminate H. }
  destruct (env_set SUPABASE_SERVICE_KEY) as [key|] eqn:Hk.
  2:{ exists false. cbn. repeat split; try discriminate.
      intros (u & k & c & _ & H & _). discriminate H. }
  destruct (create_client url key) as [c|e] eqn:Hc.
  - exists true. cbn. repeat split. intros _. exists url, key, c. auto.
  - exists false. cbn. repeat split; try discriminate.
    intros (u & k & c & [= <-] & [= <-] & H). congruence.
Qed.

End Configuration.

(** ** What the rendered documents hold *)

Section Documents.
Context {doc : DocLib}.
Import Reportlab.

Lemma docx_v2_title_line (exps : list WorkExperience) (e : WorkExperience) :
  In e exps ->
  In (cr_to_lf (title e ++ " | " ++ company e ++ " (" ++ years e ++ ")"))
     (map snd (flat_map docx_v2_entry_view exps)).
Proof.
  intros Hin.
  apply (in_map snd _ (false, cr_to_lf (title e ++ " | " ++ company e
                                         ++ " (" ++ years e ++ ")"))).
  apply in_flat_map. exists e. split; [exact Hin | left; reflexivity].
Qed.

(** X15. [generate_docx_v2] changes nothing, and returns a document
    exactly for a profile whose texts python-docx accepts: when it
    refuses one of them, the renderer raises.  The text of the document
    returned holds the name in upper case, the email, the stripped
    summary, every skill, and the title, company and years of every
    experience entry, each as it reads back, a carriage return as a line
    feed. *)
Theorem docx_v2_holds_every_field (p : ResumeProfile) (w : World) :
  (forallb docx_accepts (docx_v2_texts p) = true ->
   exists d,
     generate_docx_v2 p w = (Return d, w)
     /\ Substring (cr_to_lf (py_upper (name p))) (Docx.document_text d)
     /\ Substring (cr_to_lf (email p)) (Docx.document_text d)
     /\ Substring (cr_to_lf (py_strip (summary p))) (Docx.document_text d)
     /\ (forall s, In s (skills p) ->
           Substring (cr_to_lf s) (Docx.document_text d))
     /\ (forall e, In e (experience p) ->
           Substring (cr_to_lf (title e)) (Docx.document_text d)
           /\ Substring (cr_to_lf (company e)) (Docx.document_text d)
           /\ Substring (cr_to_lf (years e)) (Docx.document_text d)))
  /\ (forallb docx_accepts (docx_v2_texts p) = false ->
      exists err, generate_docx_v2 p w = (Raise err, w)).
Proof.
  split.
  2:{ intros Hbad. destruct (docx_v2_blocks_refused p Hbad) as [err Herr].
      exists err. unfold generate_docx_v2, bind, lift. now rewrite Herr. }
  intros Hok.
  destruct (docx_v2_blocks_shape p Hok) as [blocks [Hblocks Hview]].
  exists blocks. split.
  { unfold generate_docx_v2, bind, lift, ret. rewrite Hblocks. reflexivity. }
  rewrite docx_text_of_view, Hview, map_app. cbn [map snd].
  split; [|split; [|split; [|split]]].
  - apply Substring_join. left. reflexivity.
  - apply Substring_join. right. left. reflexivity.
  - apply Substring_join. do 4 right. left. reflexivity.
  - intros s Hs.
    apply Substring_in_line with (cr_to_lf (PyStr.join ", " (skills p))).
    + apply Substring_cr_to_lf, Substring_join, Hs.
    + do 6 right. left. reflexivity.
  - intros e He.
    assert (Hline : In (cr_to_lf (title e ++ " | " ++ company e
                                   ++ " (" ++ years e ++ ")"))
                       ([cr_to_lf (py_upper (name p)); cr_to_lf (email p);
                         PyStr.times "—" 50; "SUMMARY";
                         cr_to_lf (py_strip (summary p)); "KEY SKILLS";
                         cr_to_lf (PyStr.join ", " (skills p)); "EXPERIENCE"]
                        ++ map snd (flat_map docx_v2_entry_view (experience p)))).
    { apply in_or_app. right. apply docx_v2_title_line, He. }
    split; [|split];
      (eapply Substring_in_line; [apply Substring_cr_to_lf | exact Hline]).
    + apply Substring_app_r, Substring_refl.
    + apply Substring_app_l. apply (Substring_mid " | ").
    + exists (title e ++ " | " ++ company e ++ " ("), ")".
      now rewrite !append_assoc3.
Qed.

(** The lines [generate_docx_v2] makes bullets of are the lines of the
    summary that are not blank, stripped. *)
Lemma docx_v2_lines_spec (e : WorkExperience) (clean_line : string) :
  In clean_line (docx_v2_lines e) <->
  clean_line <> EmptyString
  /\ exists line, In line (PyStr.split (ascii_of_nat 10) (exp_summary e))
                  /\ clean_line = py_strip line.
Proof.
  unfold docx_v2_lines. rewrite filter_In, in_map_iff. split.
  - intros [[line [<- Hline]] Hne]. split.
    + intros Heq. rewrite Heq in Hne. discriminate Hne.
    + exists line. auto.
  - intros [Hne [line [Hline ->]]]. split.
    + exists line. auto.
    + destruct (py_strip line); [contradiction | reflexivity].
Qed.

(** X16. In the document [generate_docx_v2] returns, for a profile whose
    texts python-docx accepts, the eight paragraphs of the header are no
    bullets, and what follows is, for every experience entry in order,
    the paragraph of its title line and then its bullets: one for every
    line of its summary that is not blank once stripped, holding the
    stripped line, and none for a line that is. *)
Theorem docx_v2_bullets (p : ResumeProfile) (w : World) :
  forallb docx_accepts (docx_v2_texts p) = true ->
  exists d,
    generate_docx_v2 p w = (Return d, w)
    /\ map fst (map paragraph_view (firstn 8 d)) = repeat false 8
    /\ map paragraph_view (skipn 8 d)
       = flat_map docx_v2_entry_view (experience p)
    /\ forall e t,
         In (true, t) (docx_v2_entry_view e) <->
         t <> EmptyString
         /\ exists line, In line (PyStr.split (ascii_of_nat 10) (exp_summary e))
                         /\ t = cr_to_lf (py_strip line).
Proof.
  intros Hok.
  destruct (docx_v2_blocks_shape p Hok) as [blocks [Hblocks Hview]].
  exists blocks. split.
  { unfold generate_docx_v2, bind, lift, ret. rewrite Hblocks. reflexivity. }
  split; [|split].
  - rewrite <- firstn_map, Hview. reflexivity.
  - rewrite <- skipn_map, Hview. reflexivity.
  - intros e t. unfold docx_v2_entry_view. cbn [In]. split.
    + intros [H|H]; [discriminate H|].
      apply in_map_iff in H. destruct H as [l [Heq Hl]].
      injection Heq as <-. apply docx_v2_lines_spec in Hl.
      destruct Hl as [Hne [line [Hline ->]]]. split.
      * destruct (py_strip line); [contradiction | discriminate].
      * exists line. auto.
    + intros [Hne [line [Hline ->]]]. right.
      apply (in_map (fun clean_line => (true, cr_to_lf clean_line))).
      apply docx_v2_lines_spec. split; [|exists line; auto].
      intros Hs. rewrite Hs in Hne. now apply Hne.
Qed.





End Documents.

Lemma docx_v2_holds_every_field_witness :
  exists d,
    generate_docx_v2 (doc := Sample.doclib) Sample.two_jobs
      (Example.world None Example.empty_session)
    = (Return d, Example.world None Example.empty_session)
    /\ Substring "ALICE SMITH" (Docx.document_text d)
    /\ Substring "Initech" (Docx.document_text d).
Proof.
  destruct (docx_v2_holds_every_field (doc := Sample.doclib) Sample.two_jobs
              (Example.world None Example.empty_session)) as [H _].
  destruct (H eq_refl) as [d [Hd [Hname [_ [_ [_ Hexp]]]]]].
  exists d. split; [exact Hd|]. split; [exact Hname|].
  apply (Hexp (mkWorkExperience "Intern" "Initech" "2014" "  ")).
  right. left. reflexivity.
Defined.

Lemma docx_v2_bullets_witness :
  exists d,
    generate_docx_v2 (doc := Sample.doclib) Sample.two_jobs
      (Example.world None Example.empty_session)
    = (Return d, Example.world None Example.empty_session)
    /\ map paragraph_view (skipn 8 d)
       = [(false, "Software Engineer | Acme (2015-2025)");
          (true, "built distributed systems");
          (true, "led a team");
          (false, "Intern | Initech (2014)")].
Proof.
  destruct (docx_v2_bullets (doc := Sample.doclib) Sample.two_jobs
              (Example.world None Example.empty_session) eq_refl)
    as [d [Hd [_ [Hview _]]]].
  exists d. split; [exact Hd|]. rewrite Hview. reflexivity.
Defined.



(** ** document_assets.py and the text export *)

Section Assets.
Context {doc : DocLib}.

(** X19. [generate_pdf] of [document_assets.py] never returns a document:
    for every profile it raises, and it changes nothing. *)
Theorem generate_pdf_never_returns (p : ResumeProfile) (w : World) :
  exists e, generate_pdf p w = (Raise e, w).
Proof.
  unfold generate_pdf, bind, lift, pdf_story, new_Paragraph.
  destruct (parse_paragraph (name p)) as [[]|e1];
    destruct (parse_paragraph (email p)) as [[]|e2];
    eexists; reflexivity.
Qed.

Lemma docx_entry_shape (e : WorkExperience) :
  forallb docx_accepts (docx_entry_texts e) = true ->
  exists blocks,
    docx_entry e = Return blocks
    /\ map Docx.block_text blocks = map cr_to_lf (docx_entry_texts e).
Proof.
  unfold docx_entry_texts. cbn [forallb]. rewrite !andb_true_iff.
  intros [Ht [Hy [Hs _]]].
  unfold docx_entry, docx_add_paragraph.
  rewrite (docx_text_accepted _ Ht), (docx_text_accepted _ Hy),
    (docx_text_accepted _ Hs).
  cbn [obind]. eexists. split; [reflexivity|].
  cbn [map]. now rewrite !block_text_add_paragraph.
Qed.

(** The document of [generate_docx], for texts python-docx accepts: the
    texts of its paragraphs. *)
Lemma docx_blocks_shape (p : ResumeProfile) :
  forallb docx_accepts (docx_texts p) = true ->
  exists blocks,
    docx_blocks p = Return blocks
    /\ map Docx.block_text blocks
       = ([cr_to_lf (name p); cr_to_lf (email p); PyStr.times "â€”" 50;
           "Summary"; cr_to_lf (summary p); "Key Skills";
           cr_to_lf (PyStr.join ", " (skills p)); "Work Experience"]
          ++ map cr_to_lf (flat_map docx_entry_texts (experience p)))%list.
Proof.
  unfold docx_texts. cbn [app forallb]. rewrite !andb_true_iff.
  intros [Hn [He [Hs [Hk Hexp]]]].
  unfold docx_blocks, docx_add_run, docx_add_paragraph.
  rewrite (docx_text_accepted _ Hn), (docx_text_accepted _ He),
    (docx_text_accepted _ Hs), (docx_text_accepted _ Hk).
  cbn [obind].
  destruct (for_each_outs docx_entry
              (fun e blocks =>
                 map Docx.block_text blocks = map cr_to_lf (docx_entry_texts e))
              (experience p)) as [outs [Houts Hall]].
  { intros e Hin. apply docx_entry_shape.
    exact (forallb_flat_map _ _ _ _ Hexp Hin). }
  rewrite Houts. cbn [obind]. eexists. split; [reflexivity|].
  cbn [app map]. rewrite block_text_aligned, !block_text_add_paragraph.
  cbn [Docx.block_text map Docx.run_text String.concat].
  do 8 f_equal.
  clear Houts Hexp. induction Hall as [|e fs es outs Ht _ IH];
    cbn [concat map flat_map].
  - reflexivity.
  - now rewrite !map_app, Ht, IH.
Qed.

Lemma docx_entry_refused (e : WorkExperience) :
  forallb docx_accepts (docx_entry_texts e) = false ->
  exists err, docx_entry e = Raise err.
Proof.
  unfold docx_entry_texts. cbn [forallb].
  unfold docx_entry, docx_add_paragraph.
  destruct (docx_accepts (title e ++ " - " ++ company e)) eqn:Ht; cbn [andb].
  2:{ intros _. destruct (docx_text_refused _ Ht) as [err ->].
      exists err. reflexivity. }
  rewrite (docx_text_accepted _ Ht). cbn [obind].
  destruct (docx_accepts ("Dates: " ++ years e)) eqn:Hy; cbn [andb].
  2:{ intros _. destruct (docx_text_refused _ Hy) as [err ->].
      exists err. reflexivity. }
  rewrite (docx_text_accepted _ Hy). cbn [obind].
  rewrite andb_true_r. intros Hs.
  destruct (docx_text_refused _ Hs) as [err ->]. exists err. reflexivity.
Qed.

(** [generate_docx] builds no document when python-docx refuses one of
    its texts. *)
Lemma docx_blocks_refused (p : ResumeProfile) :
  forallb docx_accepts (docx_texts p) = false ->
  exists err, docx_blocks p = Raise err.
Proof.
  unfold docx_texts. cbn [app forallb].
  unfold docx_blocks, docx_add_run, docx_add_paragraph.
  destruct (docx_accepts (name p)) eqn:Hn; cbn [andb].
  2:{ intros _. destruct (docx_text_refused _ Hn) as [err ->].
      exists err. reflexivity. }
  rewrite (docx_text_accepted _ Hn). cbn [obind].
  destruct (docx_accepts (email p)) eqn:He; cbn [andb].
  2:{ intros _. destruct (docx_text_refused _ He) as [err ->].
      exists err. reflexivity. }
  rewrite (docx_text_accepted _ He). cbn [obind].
  destruct (docx_accepts (summary p)) eqn:Hs; cbn [andb].
  2:{ intros _. destruct (docx_text_refused _ Hs) as [err ->].
      exists err. reflexivity. }
  rewrite (docx_text_accepted _ Hs). cbn [obind].
  destruct (docx_accepts (PyStr.join ", " (skills p))) eqn:Hk; cbn [andb].
  2:{ intros _. destruct (docx_text_refused _ Hk) as [err ->].
      exists err. reflexivity. }
  rewrite (docx_text_accepted _ Hk). cbn [obind].
  rewrite forallb_flat_map_each. intros Hexp.
  destruct (for_each_raises docx_entry
              (fun e => forallb docx_accepts (docx_entry_texts e))
              (experience p)) as [err ->].
  - intros e Hok. destruct (docx_entry_shape e Hok) as [fs [-> _]].
    eexists. reflexivity.
  - intros e Hbad. exact (docx_entry_refused e Hbad).
  - exact Hexp.
  - exists err. reflexivity.
Qed.

(** X20. [generate_docx] of [document_assets.py] changes nothing, and
    returns a document exactly for a profile whose texts python-docx
    accepts: when it refuses one of them, the renderer raises.  The text
    of the document returned holds the name as it is written, not upper
    cased, the email, the summary unstripped, every skill, and the title,
    company, years and whole summary of every experience entry, each as it
    reads back, a carriage return as a line feed. *)
Theorem docx_holds_every_field (p : ResumeProfile) (w : World) :
  (forallb docx_accepts (docx_texts p) = true ->
   exists d,
     generate_docx p w = (Return d, w)
     /\ Substring (cr_to_lf (name p)) (Docx.document_text d)
     /\ Substring (cr_to_lf (email p)) (Docx.document_text d)
     /\ Substring (cr_to_lf (summary p)) (Docx.document_text d)
     /\ (forall s, In s (skills p) ->
           Substring (cr_to_lf s) (Docx.document_text d))
     /\ (forall e, In e (experience p) ->
           Substring (cr_to_lf (title e)) (Docx.document_text d)
           /\ Substring (cr_to_lf (company e)) (Docx.document_text d)
           /\ Substring (cr_to_lf (years e)) (Docx.document_text d)
           /\ Substring (cr_to_lf (exp_summary e)) (Docx.document_text d)))
  /\ (forallb docx_accepts (docx_texts p) = false ->
      exists err, generate_docx p w = (Raise err, w)).
Proof.
  split.
  2:{ intros Hbad. destruct (docx_blocks_refused p Hbad) as [err Herr].
      exists err. unfold generate_docx, bind, lift. now rewrite Herr. }
  intros Hok.
  destruct (docx_blocks_shape p Hok) as [blocks [Hblocks Htexts]].
  exists blocks. split.
  { unfold generate_docx, bind, lift, ret. rewrite Hblocks. reflexivity. }
  unfold Docx.document_text. rewrite Htexts.
  split; [|split; [|split; [|split]]].
  - apply Substring_join. left. reflexivity.
  - apply Substring_join. right. left. reflexivity.
  - apply Substring_join. do 4 right. left. reflexivity.
  - intros s Hs.
    apply Substring_in_line with (cr_to_lf (PyStr.join ", " (skills p))).
    + apply Substring_cr_to_lf, Substring_join, Hs.
    + do 6 right. left. reflexivity.
  - intros e He.
    assert (Hin : forall line, In line (docx_entry_texts e) ->
              In (cr_to_lf line)
                 ([cr_to_lf (name p); cr_to_lf (email p); PyStr.times "â€”" 50;
                   "Summary"; cr_to_lf (summary p); "Key Skills";
                   cr_to_lf (PyStr.join ", " (skills p)); "Work Experience"]
                  ++ map cr_to_lf (flat_map docx_entry_texts (experience p)))).
    { intros line Hl. apply in_or_app. right. apply in_map.
      apply in_flat_map. now exists e. }
    split; [|split; [|split]].
    + eapply Substring_in_line; [apply Substring_cr_to_lf | apply Hin; left; reflexivity].
      apply Substring_app_r, Substring_refl.
    + eapply Substring_in_line; [apply Substring_cr_to_lf | apply Hin; left; reflexivity].
      apply Substring_app_l, Substring_app_l, Substring_refl.
    + eapply Substring_in_line;
        [apply Substring_cr_to_lf | apply Hin; right; left; reflexivity].
      apply Substring_app_l, Substring_refl.
    + eapply Substring_in_line;
        [apply Substring_refl | apply Hin; do 2 right; left; reflexivity].
Qed.

(** X21. The text export holds the name, the email and the summary on
    their labelled lines and every skill, and nothing of the experience:
    two profiles that differ in their experience entries only export the
    same text. *)
Theorem txt_export_fields (p : ResumeProfile) :
  Substring ("Name: " ++ name p ++ nl ++ "Email: " ++ email p ++ nl
             ++ "Summary:" ++ nl ++ summary p ++ nl)
            (txt_resume_content p)
  /\ (forall s, In s (skills p) -> Substring s (txt_resume_content p))
  /\ forall exps,
       txt_resume_content
         (mkResumeProfile (name p) (email p) (summary p) (skills p) exps)
       = txt_resume_content p.
Proof.
  unfold txt_resume_content. split; [|split].
  - exists ("--- ATS-READY TEXT PROFILE ---" ++ nl ++ nl),
           (nl ++ "Skills: " ++ PyStr.join ", " (skills p) ++ nl ++ nl).
    now rewrite !append_assoc3.
  - intros s Hs.
    apply Substring_trans with (PyStr.join ", " (skills p));
      [apply Substring_join, Hs|].
    exists ("--- ATS-READY TEXT PROFILE ---" ++ nl ++ nl
            ++ "Name: " ++ name p ++ nl ++ "Email: " ++ email p ++ nl
            ++ "Summary:" ++ nl ++ summary p ++ nl ++ nl ++ "Skills: "),
           (nl ++ nl).
    now rewrite !append_assoc3.
  - reflexivity.
Qed.

End Assets.

Lemma docx_holds_every_field_witness :
  exists d,
    generate_docx (doc := Sample.doclib) Sample.two_jobs
      (Example.world None Example.empty_session)
    = (Return d, Example.world None Example.empty_session)
    /\ Substring "Alice Smith" (Docx.document_text d)
    /\ Substring "Initech" (Docx.document_text d).
Proof.
  destruct (docx_holds_every_field (doc := Sample.doclib) Sample.two_jobs
              (Example.world None Example.empty_session)) as [H _].
  destruct (H eq_refl) as [d [Hd [Hname [_ [_ [_ Hexp]]]]]].
  exists d. split; [exact Hd|]. split; [exact Hname|].
  apply (Hexp (mkWorkExperience "Intern" "Initech" "2014" "  ")).
  right. left. reflexivity.
Defined.

(** ** The client, the input section and the generate button *)

Section Inputs.
Context {lib : PyLib} {doc : DocLib}.

(** X22. [get_gemini_client] raises nothing.  It returns a client, showing
    nothing, exactly when the key is set and non-empty and the constructor
    returned; otherwise it returns [None] and shows one message. *)
Theorem get_gemini_client_result (API_KEY : option string)
    (genai_Client : string -> outcome GeminiClient) (w : World) :
  (exists key c,
     env_set API_KEY = Some key /\ genai_Client key = Return c
     /\ get_gemini_client API_KEY genai_Client w = (Return (Some c), w))
  \/ (exists ev,
        (env_set API_KEY = None
         \/ exists key e, env_set API_KEY = Some key /\ genai_Client key = Raise e)
        /\ get_gemini_client API_KEY genai_Client w
           = (Return None, with_shown w [ev])).
Proof.
  unfold get_gemini_client.
  destruct (env_set API_KEY) as [key|].
  - unfold try_except, bind, lift.
    destruct (genai_Client key) as [c|e] eqn:Hc.
    + left. exists key, c. auto.
    + right. eexists. split; [right; exists key, e; auto | reflexivity].
  - right. eexists. split; [left; reflexivity | reflexivity].
Qed.

Lemma split_not_empty (sep : ascii) (s : string) : PyStr.split sep s <> [].
Proof.
  destruct s as [|c r]; simpl; [discriminate|].
  destruct (Ascii.eqb c sep); [discriminate|].
  destruct (PyStr.split sep r); discriminate.
Qed.

Lemma split_without_sep (sep : ascii) (s : string) :
  PyStr.contains (String sep EmptyString) s = false -> PyStr.split sep s = [s].
Proof.
  induction s as [|c r IH]; [reflexivity|].
  cbn [PyStr.contains PyStr.split]. intros H.
  apply orb_false_iff in H. destruct H as [Hpre Hrest].
  destruct (Ascii.eqb_spec c sep) as [->|Hne].
  - exfalso. cbn [String.prefix] in Hpre.
    destruct (ascii_dec sep sep) as [_|Hn]; [|now apply Hn].
    destruct r; discriminate Hpre.
  - rewrite (IH Hrest). reflexivity.
Qed.

Lemma split_at_sep (sep : ascii) (a b : string) :
  exists l, l <> [] /\ PyStr.split sep (a ++ String sep b) = (l ++ PyStr.split sep b)%list.
Proof.
  induction a as [|c r (l & Hl & IH)].
  - exists [EmptyString]. split; [discriminate|].
    simpl. now rewrite Ascii.eqb_refl.
  - cbn [append PyStr.split]. rewrite IH.
    destruct (Ascii.eqb c sep).
    + exists (EmptyString :: l). split; [discriminate | reflexivity].
    + destruct l as [|h t]; [contradiction|].
      exists (String c h :: t). split; [discriminate | reflexivity].
Qed.

Lemma last_app_not_empty {A : Type} (l m : list A) (d : A) :
  m <> [] -> last (l ++ m) d = last m d.
Proof.
  intros Hm. induction l as [|x l IH]; [reflexivity|].
  cbn [app]. destruct (l ++ m)%list eqn:E.
  - destruct l; [contradiction | discriminate E].
  - rewrite <- IH. reflexivity.
Qed.

(** X23. The extension the input section works with is what follows the
    last dot of the file name. *)
Theorem file_extension_after_last_dot (base ext : string) :
  PyStr.contains "." ext = false ->
  file_extension_of (base ++ "." ++ ext) = ext.
Proof.
  intros Hext. unfold file_extension_of.
  destruct (split_at_sep "." base ext) as (l & _ & Hsplit).
  change (base ++ "." ++ ext) with (base ++ String "." ext).
  rewrite Hsplit, last_app_not_empty by apply split_not_empty.
  rewrite (split_without_sep "." ext Hext). reflexivity.
Qed.







(** X25. Nothing catches a failure of the reading library: when the file
    named as a PDF or as a Word document cannot be read, the input section
    raises the library's exception. *)
Theorem unreadable_upload_raises (file : UploadedFile) (user_data : string)
    (w : World) (e : exn) :
  (file_extension_of (file_name file) = "pdf" /\ pdf_pages file = Raise e)
  \/ (file_extension_of (file_name file) = "docx" /\ docx_paragraphs file = Raise e) ->
  input_section (Some file) user_data w
  = (Raise e, with_shown w [st_spinner ("Reading text from " ++ file_name file ++ "...")]).
Proof.
  unfold input_section, bind, lift, read_pdf, read_docx.
  intros [[Hext Hread]|[Hext Hread]]; rewrite Hext, Hread; reflexivity.
Qed.

Lemma parse_failure (w : World) (cl : GeminiClient) (resume_text : string)
    (e : exn) :
  client w = Some cl ->
  resume_request cl resume_text = Raise e ->
  parse_resume_to_json resume_text w
  = (Return None, with_shown w [st_error ("AI Parsing Error: " ++ str_of_exn e)]).
Proof.
  intros Hc Hcall. unfold resume_request in Hcall.
  unfold parse_resume_to_json, bind, get. rewrite Hc.
  unfold try_except, lift. rewrite Hcall. reflexivity.
Qed.

(** X26. A failed extraction erases the profile parsed before: with text
    to parse and a client whose call raises, the session's profile is
    [None] after the generate button, whatever it was. *)
Theorem failed_extraction_clears_profile (w : World) (cl : GeminiClient)
    (resume_text_to_parse parsing_source template_choice : string) (e : exn) :
  PyStr.falsy resume_text_to_parse = false ->
  client w = Some cl ->
  resume_request cl resume_text_to_parse = Raise e ->
  exists w',
    generate_button resume_text_to_parse parsing_source template_choice w
    = (Return tt, w')
    /\ parsed_profile (session_state w') = None.
Proof.
  intros Htext Hc Hcall. unfold generate_button, parse_and_store. rewrite Htext.
  unfold bind at 1. unfold bind at 1. unfold get at 1. rewrite Hc.
  unfold bind at 1. rewrite emit_is_with_shown.
  unfold bind at 1.
  rewrite (parse_failure (with_shown w _) cl _ e Hc Hcall).
  eexists. split; reflexivity.
Qed.


End Inputs.

Lemma file_extension_after_last_dot_witness :
  file_extension_of "alice.smith.docx" = "docx".
Proof.
  apply (file_extension_after_last_dot "alice.smith" "docx"). reflexivity.
Defined.


Lemma unreadable_upload_raises_witness :
  input_section (doc := Sample.doclib) (Some Sample.broken_upload) "Name: Alice Smith"
    (Example.world None Example.empty_session)
  = (Raise (OtherError "PdfReadError" "EOF marker not found"),
     with_shown (Example.world None Example.empty_session)
       [st_spinner "Reading text from cv.pdf..."]).
Proof.
  apply (unreadable_upload_raises (doc := Sample.doclib) Sample.broken_upload
           "Name: Alice Smith" (Example.world None Example.empty_session)).
  left. split; reflexivity.
Defined.

Lemma failed_extraction_clears_profile_witness :
  exists w',
    generate_button (lib := Example.lib) (doc := Sample.doclib)
      "Name: Bob" "Pasted Text" "Minimalist (Template 1)"
      (Example.world (Some Example.failing) (Sample.session_with Example.alice))
    = (Return tt, w')
    /\ parsed_profile (session_state w') = None.
Proof.
  apply (failed_extraction_clears_profile (lib := Example.lib) (doc := Sample.doclib)
           (Example.world (Some Example.failing) (Sample.session_with Example.alice))
           Example.failing "Name: Bob" "Pasted Text" "Minimalist (Template 1)"
           (OtherError "ServerError" "503 UNAVAILABLE")).
  - reflexivity.
  - reflexivity.
  - reflexivity.
Defined.


(** ** The cover letter and the final feedback *)

Section Letters.
Context {lib : PyLib} {doc : DocLib}.

(** X28. [generate_cover_letter] raises nothing.  Without a client what
    it returns is not [None] but the text "Error: Gemini client not
    initialized.", which a caller cannot tell from a letter, and nothing
    is shown.  With one, it returns the text of the response and shows
    nothing; when the call raises, it returns [None] and shows the one
    error "Cover Letter API Error: " with the text of the exception. *)
Theorem cover_letter_never_raises (w : World)
    (profile_json job_description tone : string) :
  (client w = None
   /\ generate_cover_letter profile_json job_description tone w
      = (Return (Some "Error: Gemini client not initialized."), w))
  \/ (exists cl response,
        client w = Some cl
        /\ cover_letter_request cl = Return response
        /\ generate_cover_letter profile_json job_description tone w
           = (Return (text response), w))
  \/ (exists cl e,
        client w = Some cl
        /\ cover_letter_request cl = Raise e
        /\ generate_cover_letter profile_json job_description tone w
           = (Return None,
              with_shown w [st_error ("Cover Letter API Error: " ++ str_of_exn e)])).
Proof.
  unfold generate_cover_letter, bind, get.
  destruct (client w) as [cl|]; [|left; split; reflexivity].
  right. unfold try_except, lift.
  destruct (cover_letter_request cl) as [response|e] eqn:Hcall;
    [left; exists cl, response | right; exists cl, e];
    (split; [reflexivity | split; [exact Hcall|]]);
    unfold cover_letter_request in Hcall; rewrite Hcall; reflexivity.
Qed.

Lemma transcript_line_returns_iff (m : json) :
  (exists l, transcript_line m = Return l) <-> turn_well_formed m = true.
Proof.
  unfold transcript_line, turn_well_formed, getitem, has_key.
  destruct m as [| | | | | |kvs];
    try (split; [intros [l H]; discriminate H | discriminate]).
  destruct (lookup "role" kvs) as [r|]; cbn [obind];
    [|split; [intros [l H]; discriminate H | discriminate]].
  destruct r; cbn [str_upper obind];
    try (split; [intros [l H]; discriminate H | discriminate]).
  destruct (lookup "text" kvs); cbn [obind].
  - split; [reflexivity | intros _; eexists; reflexivity].
  - split; [intros [l H]; discriminate H | discriminate].
Qed.

Lemma for_each_returns_iff {A B : Type} (body : A -> outcome (list B))
    (ok : A -> bool) (xs : list A) :
  (forall x, (exists l, body x = Return l) <-> ok x = true) ->
  (exists out, for_each body xs = Return out) <-> forallb ok xs = true.
Proof.
  intros Hok. induction xs as [|x xs IH]; cbn [for_each forallb].
  - split; [reflexivity | intros _; eexists; reflexivity].
  - rewrite andb_true_iff, <- Hok, <- IH. split.
    + intros [out H]. destruct (body x) as [l|]; [|discriminate H].
      cbn [obind] in H. destruct (for_each body xs) as [more|]; [|discriminate H].
      split; eexists; reflexivity.
    + intros [[l Hl] [more Hmore]]. rewrite Hl, Hmore. eexists. reflexivity.
Qed.

(** X29. With a client, [generate_final_feedback] raises exactly when some
    turn of the history is not a dict with a string under [role] and a
    [text]: the transcript is built outside the [try].  With a history of
    well-formed turns it returns the text of the response and shows
    nothing, or, when the call raises, the sentence "Failed to generate
    final feedback report." after the one error "Final Feedback API
    Error: " with the text of the exception. *)
Theorem final_feedback_raises_iff (w : World) (cl : GeminiClient)
    (history : list json) (role type profile_json : string) :
  client w = Some cl ->
  ((exists e, generate_final_feedback history role type profile_json w
              = (Raise e, w))
   <-> forallb turn_well_formed history = false)
  /\ (forallb turn_well_formed history = true ->
      (forall response,
          feedback_request cl = Return response ->
          generate_final_feedback history role type profile_json w
          = (Return (text response), w))
      /\ (forall e,
            feedback_request cl = Raise e ->
            generate_final_feedback history role type profile_json w
            = (Return (Some "Failed to generate final feedback report."),
               with_shown w
                 [st_error ("Final Feedback API Error: " ++ str_of_exn e)]))).
Proof.
  intros Hc.
  pose proof (for_each_returns_iff transcript_line turn_well_formed history
                transcript_line_returns_iff) as Hiff.
  unfold feedback_request, generate_final_feedback, bind, get.
  rewrite Hc. unfold lift at 1.
  destruct (for_each transcript_line history) as [lines|e0] eqn:Hlines.
  - assert (Hok : forallb turn_well_formed history = true)
      by (apply Hiff; eexists; reflexivity).
    unfold try_except, lift. split.
    + rewrite Hok. split; [|discriminate].
      intros [e H]. destruct (generate_content cl _ _ _); discriminate H.
    + intros _. split.
      * intros response ->. reflexivity.
      * intros e ->. reflexivity.
  - assert (Hbad : forallb turn_well_formed history = false).
    { destruct (forallb turn_well_formed history); [|reflexivity].
      destruct (proj2 Hiff eq_refl) as [out H]. discriminate H. }
    split.
    + split; [intros _; exact Hbad | intros _; eexists; reflexivity].
    + rewrite Hbad. discriminate.
Qed.

End Letters.

Lemma final_feedback_raises_iff_witness :
  (exists e, generate_final_feedback (lib := Example.lib) (doc := Sample.doclib)
               [Sample.good_turn; Sample.turn_without_text]
               "AI Engineer" "Technical" "{...}"
               (Example.world (Some Example.failing) Example.empty_session)
             = (Raise e, Example.world (Some Example.failing) Example.empty_session))
  <-> forallb turn_well_formed [Sample.good_turn; Sample.turn_without_text] = false.
Proof.
  destruct (final_feedback_raises_iff (lib := Example.lib) (doc := Sample.doclib)
              (Example.world (Some Example.failing) Example.empty_session)
              Example.failing [Sample.good_turn; Sample.turn_without_text]
              "AI Engineer" "Technical" "{...}" eq_refl) as [H _].
  exact H.
Defined.
